(** * IOT support chatbot: the conversation session engine

    A shallow embedding of the session bookkeeping of the chatbot
    ([src/session_manager.py]), of its query router
    ([src/product_router.py]), of the feedback recorder
    ([src/feedback_manager.py]) and of the configuration tables they read
    ([config/settings.py]), with the request handlers that drive them
    ([app.py]) and the validation of the registration form
    ([src/ui_components.py]), followed by the properties of the
    specification that concern them and by further properties of the
    code.

    Conventions of the embedding:
    - a Python [str] is a Rocq [string] whose characters are code points
      below 256;
    - a Python [int] is a [Z]; a Python [float] is a primitive binary64
      [float], so that the arithmetic of the router rounds as in CPython;
    - a Python [dict] used as a map is a [gmap]; a [dict] whose order of
      declaration matters (the keyword tables) is an association list;
    - a [datetime] is a [Z] counting microseconds, and [datetime.now()] is
      an argument of the operation that reads the clock;
    - the outcome of a call to the durable layer is an argument of the
      operation that makes the call; the operations catch what the
      durable layer raises, and nothing else raises in them. *)

From Stdlib Require Import ZArith Floats String Ascii List Bool Lia.
From stdpp Require Import gmap strings list.
Import ListNotations.

Local Open Scope string_scope.
Local Open Scope Z_scope.
Local Open Scope list_scope.

(** ** Python string primitives *)

Module PyStr.

Definition code (c : ascii) : N := N_of_ascii c.

(** [c.isspace()] on code points below 256. *)
Definition isspace (c : ascii) : bool :=
  let n := code c in
  ((9 <=? n) && (n <=? 13) || (28 <=? n) && (n <=? 32)
   || (n =? 133) || (n =? 160))%N.

(** [c.lower()] on code points below 256: the ASCII capitals and the
    Latin-1 capitals (all of 0xC0..0xDE but the multiplication sign). *)
Definition lower_char (c : ascii) : ascii :=
  let n := code c in
  if ((65 <=? n) && (n <=? 90)
      || (192 <=? n) && (n <=? 222) && negb (n =? 215))%N
  then ascii_of_N (n + 32) else c.

Definition islower_ascii (c : ascii) : bool :=
  ((97 <=? code c) && (code c <=? 122))%N.

Definition isupper_ascii (c : ascii) : bool :=
  ((65 <=? code c) && (code c <=? 90))%N.

Definition upper_char_ascii (c : ascii) : ascii :=
  if islower_ascii c then ascii_of_N (code c - 32) else c.

Fixpoint lower (s : string) : string :=
  match s with
  | EmptyString => EmptyString
  | String c s' => String (lower_char c) (lower s')
  end.

Fixpoint lstrip (s : string) : string :=
  match s with
  | EmptyString => EmptyString
  | String c s' => if isspace c then lstrip s' else s
  end.

Fixpoint rstrip (s : string) : string :=
  match s with
  | EmptyString => EmptyString
  | String c s' =>
      match rstrip s' with
      | EmptyString => if isspace c then EmptyString else String c EmptyString
      | r => String c r
      end
  end.

Definition strip (s : string) : string := rstrip (lstrip s).

Fixpoint startswith (s p : string) : bool :=
  match p, s with
  | EmptyString, _ => true
  | String a p', String b s' => Ascii.eqb a b && startswith s' p'
  | String _ _, EmptyString => false
  end.

(** [needle in hay] on strings. *)
Fixpoint contains (needle hay : string) : bool :=
  startswith hay needle
  || match hay with
     | EmptyString => false
     | String _ hay' => contains needle hay'
     end.

(** [s.title()], for strings whose cased characters are ASCII letters:
    a letter that follows an uncased character is capitalised, a letter
    that follows a cased one is lower-cased. *)
Fixpoint title_from (previous_is_cased : bool) (s : string) : string :=
  match s with
  | EmptyString => EmptyString
  | String c s' =>
      if islower_ascii c then
        String (if previous_is_cased then c else upper_char_ascii c)
               (title_from true s')
      else if isupper_ascii c then
        String (if previous_is_cased then lower_char c else c)
               (title_from true s')
      else String c (title_from false s')
  end.

Definition title (s : string) : string := title_from false s.

(** [s in l] for a list of strings. *)
Definition mem (s : string) (l : list string) : bool :=
  existsb (String.eqb s) l.

(** Truthiness of a string: [if s:]. *)
Definition truthy (s : string) : bool :=
  match s with EmptyString => false | _ => true end.

End PyStr.

(** ** Python numbers *)

Module PyNum.

(** [float(n)] for a length or a count. *)
Definition float_of_nat (n : nat) : float :=
  PrimFloat.of_uint63 (Uint63.of_Z (Z.of_nat n)).

(** [max(l)] on a non-empty list of floats: the first item is kept
    until a later one compares greater. *)
Definition max_from (first : float) (rest : list float) : float :=
  fold_left (fun m x => if (m <? x)%float then x else m) rest first.

End PyNum.

(** ** The similarity ratio of [difflib.SequenceMatcher]

    [difflib] belongs to the Python standard library, not to the
    repository.  The router is embedded over an arbitrary ratio function;
    the definitions below follow the documented behaviour of
    [SequenceMatcher(None, a, b).ratio()] for a second sequence of fewer
    than 200 characters (no junk heuristic), and serve to run the router on
    concrete queries. *)

Module Difflib.

Fixpoint common_prefix (a b : list ascii) : nat :=
  match a, b with
  | x :: a', y :: b' => if Ascii.eqb x y then S (common_prefix a' b') else 0
  | _, _ => 0
  end.

(** Matches of the suffix of [a] at position [i] against every position
    [j] of [b]; a block replaces the best one only when strictly longer. *)
Fixpoint scan_b (a_suffix b : list ascii) (i j : nat)
    (best : nat * nat * nat) : nat * nat * nat :=
  match b with
  | [] => best
  | _ :: b' =>
      let k := common_prefix a_suffix b in
      let best' := if (snd best <? k)%nat then (i, j, k) else best in
      scan_b a_suffix b' i (S j) best'
  end.

Fixpoint scan_a (a b : list ascii) (i : nat)
    (best : nat * nat * nat) : nat * nat * nat :=
  match a with
  | [] => best
  | _ :: a' => scan_a a' b (S i) (scan_b a b i 0%nat best)
  end.

(** [find_longest_match]: of all maximal matching blocks, the one that
    starts earliest in [a], and of those the one that starts earliest in
    [b]; [(0, 0, 0)] when nothing matches. *)
Definition find_longest_match (a b : list ascii) : nat * nat * nat :=
  scan_a a b 0%nat (0%nat, 0%nat, 0%nat).

(** Total size of [get_matching_blocks()]: the longest block, then the
    pieces to its left and to its right. *)
Fixpoint matches (fuel : nat) (a b : list ascii) : nat :=
  match fuel with
  | O => 0
  | S fuel' =>
      let '(i, j, k) := find_longest_match a b in
      match k with
      | O => 0
      | S _ =>
          (k + matches fuel' (firstn i a) (firstn j b)
             + matches fuel' (skipn (i + k) a) (skipn (j + k) b))%nat
      end
  end.

(** [_calculate_ratio(matches, length)]. *)
Definition calculate_ratio (m length : nat) : float :=
  match length with
  | O => 1.0%float
  | S _ => (2.0 * PyNum.float_of_nat m / PyNum.float_of_nat length)%float
  end.

Definition ratio (a b : string) : float :=
  let la := list_ascii_of_string a in
  let lb := list_ascii_of_string b in
  calculate_ratio (matches (S (length la)) la lb)
                  (length la + length lb)%nat.

End Difflib.

(** ** Configuration tables ([config/settings.py]) *)

Module Settings.

(** An expert record.  A product expert has the keys [name], [email]
    and [phone]; an overall expert has [title] and [specialties] too. *)
Record expert := {
  expert_name : string;
  expert_title : option string;
  expert_email : string;
  expert_phone : string;
  expert_specialties : option (list string)
}.

Record product := {
  name : string;
  description : string;
  expert_of : expert
}.

Definition product_expert (n e p : string) : expert :=
  {| expert_name := n; expert_title := None; expert_email := e;
     expert_phone := p; expert_specialties := None |}.

Definition IOT_PRODUCTS : list product := [
  {| name := "Smart Home Hub";
     description := "Central control unit for smart home devices";
     expert_of := product_expert "John Smith" "john.smith@company.com"
                                 "+1-555-0101" |};
  {| name := "Security Camera System";
     description := "Wireless security camera with AI detection";
     expert_of := product_expert "Sarah Johnson" "sarah.johnson@company.com"
                                 "+1-555-0102" |};
  {| name := "Smart Thermostat";
     description := "AI-powered temperature control system";
     expert_of := product_expert "Mike Chen" "mike.chen@company.com"
                                 "+1-555-0103" |};
  {| name := "Smart Lighting System";
     description := "Automated lighting control with voice commands";
     expert_of := product_expert "Lisa Wang" "lisa.wang@company.com"
                                 "+1-555-0104" |}
].

Definition OVERALL_EXPERTS : list expert := [
  {| expert_name := "Dr. Emily Rodriguez";
     expert_title := Some "Senior IOT Technical Lead";
     expert_email := "emily.rodriguez@company.com";
     expert_phone := "+1-555-0201";
     expert_specialties :=
       Some ["All IOT Products"; "System Integration";
             "Technical Architecture"] |};
  {| expert_name := "Alex Thompson";
     expert_title := Some "IOT Customer Success Manager";
     expert_email := "alex.thompson@company.com";
     expert_phone := "+1-555-0202";
     expert_specialties :=
       Some ["Customer Support"; "Product Training"; "Troubleshooting"] |}
].

(** [FEEDBACK_INTERVAL = int(os.getenv('FEEDBACK_INTERVAL', 3))]: the
    value of the environment when it is set, 3 otherwise. *)
Definition FEEDBACK_INTERVAL (env : option Z) : Z :=
  match env with Some n => n | None => 3 end.

(** Session timeout in seconds. *)
Definition SESSION_TIMEOUT : Z := 3600.

End Settings.

(** ** The query router ([src/product_router.py]) *)

Set Warnings "-inexact-float".

Module Analysis.

(** The dictionary returned by [analyze_query_intent]. *)
Record t := {
  is_exit : bool;
  is_language_selection : bool;
  selected_language : option string;
  is_product_listing : bool;
  routed_product : option string;
  confidence_score : float;
  expert_contact : option Settings.expert
}.

Definition initial : t :=
  {| is_exit := false; is_language_selection := false;
     selected_language := None; is_product_listing := false;
     routed_product := None; confidence_score := 0.0%float;
     expert_contact := None |}.

(** [initial] with [is_exit] set. *)
Definition exit : t :=
  {| is_exit := true; is_language_selection := false;
     selected_language := None; is_product_listing := false;
     routed_product := None; confidence_score := 0.0%float;
     expert_contact := None |}.

(** [initial] with [is_language_selection] set and the language. *)
Definition language (selected : option string) : t :=
  {| is_exit := false; is_language_selection := true;
     selected_language := selected; is_product_listing := false;
     routed_product := None; confidence_score := 0.0%float;
     expert_contact := None |}.

(** [initial] with [is_product_listing] set. *)
Definition listing : t :=
  {| is_exit := false; is_language_selection := false;
     selected_language := None; is_product_listing := true;
     routed_product := None; confidence_score := 0.0%float;
     expert_contact := None |}.

(** [initial] with the outcome of the routing. *)
Definition routed (product : option string) (confidence : float)
    (expert : option Settings.expert) : t :=
  {| is_exit := false; is_language_selection := false;
     selected_language := None; is_product_listing := false;
     routed_product := product; confidence_score := confidence;
     expert_contact := expert |}.

End Analysis.

Module ProductRouter.

Definition product_keywords : list (string * list string) := [
  ("Smart Home Hub",
    ["hub"; "central"; "control"; "smart home"; "automation";
     "central unit"; "main controller"; "home automation"; "smart hub";
     "control center"]);
  ("Security Camera System",
    ["camera"; "security"; "surveillance"; "monitoring"; "recording";
     "video"; "cctv"; "security camera"; "surveillance system";
     "motion detection"; "night vision"; "recording"; "footage";
     "monitor"]);
  ("Smart Thermostat",
    ["thermostat"; "temperature"; "heating"; "cooling"; "climate"; "hvac";
     "smart thermostat"; "temperature control"; "heating system";
     "cooling system"; "climate control"; "energy saving";
     "temperature sensor"]);
  ("Smart Lighting System",
    ["lighting"; "lights"; "bulb"; "lamp"; "illumination"; "smart lights";
     "smart lighting"; "light control"; "dimmer"; "color"; "brightness";
     "automated lighting"; "voice control"; "light bulb"])
].

Definition exit_commands : list string :=
  ["exit"; "quit"; "end"; "stop"; "bye"; "goodbye"].

Definition language_keywords : list (string * list string) := [
  ("english", ["english"; "en"; "inggris"; "bahasa inggris"]);
  ("malay", ["malay"; "malaysian"; "melayu"; "bahasa melayu"; "bm"])
].

Definition listing_keywords : list string := [
  "list all products"; "show all products"; "what products";
  "available products"; "all products"; "product list";
  "what do you have"; "what can you help with"; "list products";
  "show products"; "available iot"; "iot products";
  "list all the products"; "list all the products in your company";
  "what products do you have"; "show me all products";
  "what are your products"; "list your products"; "company products";
  "your products"; "all your products"
].

(** [any(keyword in text for keyword in keywords)]. *)
Definition any_keyword_in (keywords : list string) (text : string) : bool :=
  existsb (fun keyword => PyStr.contains keyword text) keywords.

Definition is_exit_command (query : string) : bool :=
  let query_lower := PyStr.strip (PyStr.lower query) in
  PyStr.mem query_lower exit_commands.

(** The loop of [is_language_selection] over the language table. *)
Fixpoint first_language (query_lower : string)
    (table : list (string * list string)) : option string :=
  match table with
  | [] => None
  | (language, keywords) :: table' =>
      if any_keyword_in keywords query_lower
      then Some (PyStr.title language)
      else first_language query_lower table'
  end.

Definition is_language_selection (query : string) : option string :=
  let query_lower := PyStr.strip (PyStr.lower query) in
  first_language query_lower language_keywords.

Definition is_product_listing_request (query : string) : bool :=
  let query_lower := PyStr.lower query in
  any_keyword_in listing_keywords query_lower.

(** [sum(1 for keyword in keywords if keyword in query_lower)]. *)
Fixpoint count_matches (query_lower : string) (keywords : list string)
    : nat :=
  match keywords with
  | [] => O
  | keyword :: keywords' =>
      if PyStr.contains keyword query_lower
      then S (count_matches query_lower keywords')
      else count_matches query_lower keywords'
  end.

(** One step of the selection loop of [route_query_to_product]. *)
Definition keep_better (best : option string * float)
    (product_name : string) (similarity_score : float)
    : option string * float :=
  if (snd best <? similarity_score)%float
  then (Some product_name, similarity_score)
  else best.

Section Router.

(** [SequenceMatcher(None, a, b).ratio()]. *)
Variable SequenceMatcher_ratio : string -> string -> float.
Variable IOT_PRODUCTS : list Settings.product.
Variable OVERALL_EXPERTS : list Settings.expert.

Definition calculate_similarity (query : string)
    (keywords : list string) : float :=
  let query_lower := PyStr.lower query in
  let exact_matches := count_matches query_lower keywords in
  let similarities :=
    map (fun keyword => SequenceMatcher_ratio query_lower keyword)
        keywords in
  let exact_score :=
    match keywords with
    | [] => 0%float
    | _ => (PyNum.float_of_nat exact_matches
            / PyNum.float_of_nat (length keywords))%float
    end in
  let similarity_score :=
    match similarities with
    | [] => 0%float
    | first :: rest => PyNum.max_from first rest
    end in
  (exact_score * 0.7 + similarity_score * 0.3)%float.

(** The selection loop: [best_product] and [best_score] after the
    products of [table] have been visited in order. *)
Definition select_best (query : string)
    (table : list (string * list string))
    (start : option string * float) : option string * float :=
  fold_left
    (fun best entry =>
       keep_better best (fst entry)
                   (calculate_similarity query (snd entry)))
    table start.

Definition route_query_to_product (query : string)
    : option string * float :=
  if is_product_listing_request query then (None, 1.0%float)
  else
    let best := select_best query product_keywords (None, 0.0%float) in
    if (snd best <? 0.1)%float then (None, snd best)
    else (fst best, snd best).

(** The search of [get_expert_contact] through [IOT_PRODUCTS]. *)
Fixpoint find_product_expert (products : list Settings.product)
    (product_name : string) : option Settings.expert :=
  match products with
  | [] => None
  | product :: products' =>
      if String.eqb (Settings.name product) product_name
      then Some (Settings.expert_of product)
      else find_product_expert products' product_name
  end.

Definition get_expert_contact (product_name : option string)
    : option Settings.expert :=
  let found :=
    match product_name with
    | Some n =>
        if PyStr.truthy n then find_product_expert IOT_PRODUCTS n
        else None
    | None => None
    end in
  match found with
  | Some expert_info => Some expert_info
  | None =>
      match OVERALL_EXPERTS with
      | overall_expert :: _ => Some overall_expert
      | [] => None
      end
  end.

Definition analyze_query_intent (query : string) : Analysis.t :=
  if is_exit_command query then Analysis.exit
  else
    let selected_language := is_language_selection query in
    if match selected_language with
       | Some l => PyStr.truthy l
       | None => false
       end
    then Analysis.language selected_language
    else if is_product_listing_request query then Analysis.listing
    else
      let '(routed_product, confidence) := route_query_to_product query in
      Analysis.routed routed_product confidence
        match routed_product with
        | Some n =>
            if PyStr.truthy n then get_expert_contact routed_product
            else None
        | None => None
        end.

End Router.

(** The products with their scores, in the order of declaration. *)
Definition score_table (SequenceMatcher_ratio : string -> string -> float)
    (query : string) (table : list (string * list string))
    : list (string * float) :=
  map (fun entry =>
         (fst entry,
          calculate_similarity SequenceMatcher_ratio query (snd entry)))
      table.

(** [first_best scored best]: nothing in [scored] scores above [best];
    when [best] names a product, that product stands in [scored] with
    the score of [best], which is positive, and no product declared
    before it scores as much; when [best] names none, its score is the
    initial 0.0. *)
Definition first_best (scored : list (string * float))
    (best : option string * float) : Prop :=
  (forall p s, In (p, s) scored -> (snd best <? s)%float = false)
  /\ match fst best with
     | Some p =>
         exists i,
           nth_error scored i = Some (p, snd best)
           /\ (0 <? snd best)%float = true
           /\ forall j p' s', (j < i)%nat ->
                nth_error scored j = Some (p', s') ->
                (snd best <=? s')%float = false
     | None => snd best = 0%float
     end.

(** [is_maximum m l]: [m] is an item of [l] and no item of [l] compares
    greater. *)
Definition is_maximum (m : float) (l : list float) : Prop :=
  In m l /\ forall x, In x l -> (m <? x)%float = false.

(** The router as deployed: the ratio of [difflib] and the tables of
    [config/settings.py]. *)
Definition deployed (query : string) : Analysis.t :=
  analyze_query_intent Difflib.ratio Settings.IOT_PRODUCTS
                       Settings.OVERALL_EXPERTS query.

End ProductRouter.

(** ** The durable layer ([config/database.py])

    The MySQL store is a collaborator: a call returns a value or raises,
    and which of the two happens is an argument of the operation that makes
    the call.  Only the feedback table is tracked, as the list of its
    rows. *)

Module Database.

Inductive outcome (A : Type) : Type :=
| Returned (a : A)
| Raised.
Arguments Returned {A} a.
Arguments Raised {A}.

(** A row of the [feedback] table: session, rating, expert contacted. *)
Definition feedback_row : Type := string * string * bool.

Record t := { feedback : list feedback_row }.

(** [save_feedback(session_id, satisfaction_rating)]: the row is
    inserted when the insertion and the commit succeed. *)
Definition save_feedback (insert : outcome bool) (session_id : string)
    (satisfaction_rating : string) (db : t) : outcome bool * t :=
  match insert with
  | Returned true =>
      (Returned true,
       {| feedback :=
            feedback db ++ [(session_id, satisfaction_rating, false)] |})
  | Returned false => (Returned false, db)
  | Raised => (Raised, db)
  end.

(** Truthiness of the result of [get_user_id]: [None] and [0] are
    false. *)
Definition truthy_id (user_id : option Z) : bool :=
  match user_id with
  | Some n => negb (n =? 0)
  | None => false
  end.

End Database.

(** ** The session manager ([src/session_manager.py]) *)

Module SessionManager.

Import Database.

Record session_info := {
  email : string;
  phone : string;
  language : string;
  created_at : Z;
  last_activity : Z;
  question_count : Z;
  product_involved : option string;
  expert_contacted : bool
}.

(** The three dictionaries of a [SessionManager]. *)
Record t := {
  active_sessions : gmap string session_info;
  session_counters : gmap string Z;
  feedback_shown : gmap string bool
}.

Definition init : t :=
  {| active_sessions := ∅; session_counters := ∅; feedback_shown := ∅ |}.

Definition set_last_activity (now : Z) (i : session_info) : session_info :=
  {| email := email i; phone := phone i; language := language i;
     created_at := created_at i; last_activity := now;
     question_count := question_count i;
     product_involved := product_involved i;
     expert_contacted := expert_contacted i |}.

Definition set_question_count (n : Z) (i : session_info) : session_info :=
  {| email := email i; phone := phone i; language := language i;
     created_at := created_at i; last_activity := last_activity i;
     question_count := n;
     product_involved := product_involved i;
     expert_contacted := expert_contacted i |}.

Definition set_product_involved (p : option string) (i : session_info)
    : session_info :=
  {| email := email i; phone := phone i; language := language i;
     created_at := created_at i; last_activity := last_activity i;
     question_count := question_count i;
     product_involved := p;
     expert_contacted := expert_contacted i |}.

Definition set_expert_contacted (b : bool) (i : session_info)
    : session_info :=
  {| email := email i; phone := phone i; language := language i;
     created_at := created_at i; last_activity := last_activity i;
     question_count := question_count i;
     product_involved := product_involved i;
     expert_contacted := b |}.

(** [timedelta(seconds=n)] in microseconds. *)
Definition timedelta_seconds (n : Z) : Z := n * 1000000.

(** [last_activity < now - timedelta(seconds=SESSION_TIMEOUT)]. *)
Definition timed_out (now : Z) (i : session_info) : bool :=
  last_activity i <? now - timedelta_seconds Settings.SESSION_TIMEOUT.

(** [create_session]: [session_id] is the fresh [uuid4], [user_id] and
    [created] are the outcomes of the two calls to the durable layer,
    [now_created] and [now_activity] the two readings of the clock. *)
Definition create_session (session_id : string)
    (user_id : outcome (option Z)) (created : outcome bool)
    (now_created now_activity : Z)
    (email phone language : string) (s : t) : option string * t :=
  match user_id with
  | Raised => (None, s)
  | Returned uid =>
      if negb (truthy_id uid) then (None, s)
      else
        match created with
        | Raised => (None, s)
        | Returned false => (None, s)
        | Returned true =>
            (Some session_id,
             {| active_sessions :=
                  <[session_id :=
                      {| email := email; phone := phone;
                         language := language;
                         created_at := now_created;
                         last_activity := now_activity;
                         question_count := 0;
                         product_involved := None;
                         expert_contacted := false |}]>
                    (active_sessions s);
                session_counters := <[session_id := 0]> (session_counters s);
                feedback_shown := <[session_id := false]> (feedback_shown s)
             |})
        end
  end.

Definition get_session_info (session_id : string) (s : t)
    : option session_info :=
  match active_sessions s !! session_id with
  | Some info =>
      Some (set_question_count
              (default 0 (session_counters s !! session_id)) info)
  | None => None
  end.

Definition update_session_activity (now : Z) (session_id : string) (s : t)
    : t :=
  match active_sessions s !! session_id with
  | Some info =>
      {| active_sessions :=
           <[session_id := set_last_activity now info]> (active_sessions s);
         session_counters := session_counters s;
         feedback_shown := feedback_shown s |}
  | None => s
  end.

Definition increment_question_count (session_id : string) (s : t)
    : Z * t :=
  let current_count := default 0 (session_counters s !! session_id) in
  let new_count := current_count + 1 in
  (new_count,
   {| active_sessions :=
        match active_sessions s !! session_id with
        | Some info =>
            <[session_id := set_question_count new_count info]>
              (active_sessions s)
        | None => active_sessions s
        end;
      session_counters := <[session_id := new_count]> (session_counters s);
      feedback_shown := feedback_shown s |}).

Definition end_session (session_id : string) (s : t) : t :=
  match active_sessions s !! session_id with
  | Some _ =>
      {| active_sessions := delete session_id (active_sessions s);
         session_counters := delete session_id (session_counters s);
         feedback_shown := delete session_id (feedback_shown s) |}
  | None => s
  end.

Definition force_end_session (session_id : string) (s : t) : bool * t :=
  (true, end_session session_id s).

Definition add_message_to_history (added : outcome bool) (now : Z)
    (session_id message_type content : string) (s : t) : bool * t :=
  match added with
  | Returned true =>
      let s1 := update_session_activity now session_id s in
      let s2 :=
        if String.eqb message_type "user"
        then snd (increment_question_count session_id s1)
        else s1 in
      (true, s2)
  | Returned false => (false, s)
  | Raised => (false, s)
  end.

Definition update_session_product (session_id product_name : string)
    (s : t) : t :=
  match active_sessions s !! session_id with
  | Some info =>
      {| active_sessions :=
           <[session_id := set_product_involved (Some product_name) info]>
             (active_sessions s);
         session_counters := session_counters s;
         feedback_shown := feedback_shown s |}
  | None => s
  end.

Definition mark_expert_contacted (session_id : string) (s : t) : t :=
  match active_sessions s !! session_id with
  | Some info =>
      {| active_sessions :=
           <[session_id := set_expert_contacted true info]>
             (active_sessions s);
         session_counters := session_counters s;
         feedback_shown := feedback_shown s |}
  | None => s
  end.

Definition is_session_active (now : Z) (session_id : string) (s : t)
    : bool * t :=
  match active_sessions s !! session_id with
  | None => (false, s)
  | Some session_info =>
      if timed_out now session_info
      then (false, end_session session_id s)
      else (true, s)
  end.

Definition reset_feedback_flag (session_id : string) (s : t) : t :=
  match feedback_shown s !! session_id with
  | Some _ =>
      {| active_sessions := active_sessions s;
         session_counters := session_counters s;
         feedback_shown := <[session_id := false]> (feedback_shown s) |}
  | None => s
  end.

(** The identifiers collected by the first loop of
    [cleanup_expired_sessions]. *)
Definition expired_sessions (current_time : Z) (s : t) : list string :=
  map fst (List.filter (fun entry => timed_out current_time (snd entry))
                       (map_to_list (active_sessions s))).

(** The second loop ends the collected sessions one by one; the
    identifiers are distinct, so the order of the visit does not show in
    the result. *)
Definition cleanup_expired_sessions (current_time : Z) (s : t) : t :=
  fold_left (fun s' session_id => end_session session_id s')
            (expired_sessions current_time s) s.

Section Gate.

(** The question budget, [config.settings.FEEDBACK_INTERVAL]. *)
Variable FEEDBACK_INTERVAL : Z.

Definition should_show_feedback (session_id : string) (s : t)
    : bool * t :=
  let question_count := default 0 (session_counters s !! session_id) in
  let feedback_already_shown :=
    default false (feedback_shown s !! session_id) in
  let should_end :=
    (FEEDBACK_INTERVAL <=? question_count)
    && negb feedback_already_shown in
  if should_end then
    (true,
     {| active_sessions := active_sessions s;
        session_counters := session_counters s;
        feedback_shown := <[session_id := true]> (feedback_shown s) |})
  else (false, s).

Definition should_end_session (session_id : string) (s : t) : bool * t :=
  should_show_feedback session_id s.

(** A call of the feedback gate or a question-count increment. *)
Inductive gate_call :=
| IncrementQuestionCount (session_id : string)
| ShouldShowFeedback (session_id : string)
| ShouldEndSession (session_id : string).

(** What a call answers to the question "must this session end now?"
    ([false] for an increment) and the state it leaves. *)
Definition gate_step (c : gate_call) (s : t) : string * bool * t :=
  match c with
  | IncrementQuestionCount sid =>
      (sid, false, snd (increment_question_count sid s))
  | ShouldShowFeedback sid =>
      (sid, fst (should_show_feedback sid s),
       snd (should_show_feedback sid s))
  | ShouldEndSession sid =>
      (sid, fst (should_end_session sid s),
       snd (should_end_session sid s))
  end.

(** Number of calls of the sequence that return [True] for
    [session_id]. *)
Fixpoint triggers (session_id : string) (calls : list gate_call) (s : t)
    : nat :=
  match calls with
  | [] => O
  | c :: calls' =>
      let '(sid, answer, s') := gate_step c s in
      ((if answer && String.eqb sid session_id then 1 else 0)
       + triggers session_id calls' s')%nat
  end.

Fixpoint gate_run (calls : list gate_call) (s : t) : t :=
  match calls with
  | [] => s
  | c :: calls' => gate_run calls' (snd (gate_step c s))
  end.

(** The state-changing and the reading operations of the manager. *)
Inductive op :=
| CreateSession (session_id : string) (user_id : outcome (option Z))
    (created : outcome bool) (now_created now_activity : Z)
    (email phone language : string)
| GetSessionInfo (session_id : string)
| UpdateSessionActivity (now : Z) (session_id : string)
| IncrementCount (session_id : string)
| ShowFeedback (session_id : string)
| EndSessionCheck (session_id : string)
| ForceEndSession (session_id : string)
| AddMessageToHistory (added : outcome bool) (now : Z)
    (session_id message_type content : string)
| GetSessionHistory (session_id : string)
| UpdateSessionProduct (session_id product_name : string)
| MarkExpertContacted (session_id : string)
| IsSessionActive (now : Z) (session_id : string)
| EndSession (session_id : string)
| ResetFeedbackFlag (session_id : string)
| CleanupExpiredSessions (now : Z)
| GetSessionStatistics.

Definition run (o : op) (s : t) : t :=
  match o with
  | CreateSession sid uid created n1 n2 e p l =>
      snd (create_session sid uid created n1 n2 e p l s)
  | GetSessionInfo _ => s
  | UpdateSessionActivity now sid => update_session_activity now sid s
  | IncrementCount sid => snd (increment_question_count sid s)
  | ShowFeedback sid => snd (should_show_feedback sid s)
  | EndSessionCheck sid => snd (should_end_session sid s)
  | ForceEndSession sid => snd (force_end_session sid s)
  | AddMessageToHistory added now sid mt c =>
      snd (add_message_to_history added now sid mt c s)
  | GetSessionHistory _ => s
  | UpdateSessionProduct sid p => update_session_product sid p s
  | MarkExpertContacted sid => mark_expert_contacted sid s
  | IsSessionActive now sid => snd (is_session_active now sid s)
  | EndSession sid => end_session sid s
  | ResetFeedbackFlag sid => reset_feedback_flag sid s
  | CleanupExpiredSessions now => cleanup_expired_sessions now s
  | GetSessionStatistics => s
  end.

(** The operation is a call of [reset_feedback_flag]. *)
Definition is_reset (o : op) : bool :=
  match o with ResetFeedbackFlag _ => true | _ => false end.

(** The operation is a successful [create_session] that generated
    [session_id]. *)
Definition creates (session_id : string) (o : op) (s : t) : bool :=
  match o with
  | CreateSession sid uid created n1 n2 e p l =>
      match fst (create_session sid uid created n1 n2 e p l s) with
      | Some sid' => String.eqb sid' session_id
      | None => false
      end
  | _ => false
  end.

End Gate.

(** The feedback-already-triggered flag of a session, as the gate reads
    it. *)
Definition feedback_triggered (session_id : string) (s : t) : bool :=
  default false (feedback_shown s !! session_id).

(** The session has a live record. *)
Definition live (session_id : string) (s : t) : bool :=
  bool_decide (is_Some (active_sessions s !! session_id)).

(** The durable layer did not resolve the owner, or did not create the
    session row. *)
Definition durable_failure (user_id : outcome (option Z))
    (created : outcome bool) : bool :=
  match user_id with
  | Raised => true
  | Returned uid =>
      negb (truthy_id uid)
      || match created with Returned true => false | _ => true end
  end.

(** What the three dictionaries hold for an identifier. *)
Definition entries (session_id : string) (s : t)
    : option session_info * option Z * option bool :=
  (active_sessions s !! session_id,
   session_counters s !! session_id,
   feedback_shown s !! session_id).

End SessionManager.

(** ** The feedback recorder ([src/feedback_manager.py]) *)

Module FeedbackManager.

Import Database.

(** The icons of the templates are emoji, outside the code points of the
    string model; they are kept as an enumeration. *)
Inductive icon := CheckMark | CrossMark | NextTrack | Memo.

Record template_entry := {
  title : string;
  message : string;
  entry_icon : icon;
  title_malay : string;
  message_malay : string
}.

(** The dictionary handed to the caller for display. *)
Record template := {
  shown_title : string;
  shown_message : string;
  shown_icon : icon
}.

Definition feedback_templates : list (string * template_entry) := [
  ("satisfied",
   {| title := "Thank you for your feedback!";
      message := "We're glad we could help you with your IOT product questions. If you need further assistance, feel free to contact our product expert.";
      entry_icon := CheckMark;
      title_malay := "Terima kasih atas maklum balas anda!";
      message_malay := "Kami gembira dapat membantu anda dengan soalan produk IOT anda. Jika anda memerlukan bantuan lanjut, sila hubungi pakar produk kami." |});
  ("unsatisfied",
   {| title := "We're sorry to hear that";
      message := "Let us connect you with our product expert for better assistance.";
      entry_icon := CrossMark;
      title_malay := "Kami sedih mendengarnya";
      message_malay := "Mari kami hubungkan anda dengan pakar produk kami untuk bantuan yang lebih baik." |});
  ("skipped",
   {| title := "Session completed";
      message := "Thank you for using our IOT Product Support Chatbot. We hope we were able to help you!";
      entry_icon := NextTrack;
      title_malay := "Sesi selesai";
      message_malay := "Terima kasih kerana menggunakan Chatbot Sokongan Produk IOT kami. Kami berharap kami dapat membantu anda!" |})
].

(** [self.feedback_templates[key]], when the key is there. *)
Fixpoint lookup_template (key : string)
    (table : list (string * template_entry)) : option template_entry :=
  match table with
  | [] => None
  | (k, e) :: table' =>
      if String.eqb k key then Some e else lookup_template key table'
  end.

Definition get_feedback_template (satisfaction_rating language : string)
    : template :=
  match lookup_template satisfaction_rating feedback_templates with
  | Some entry =>
      if String.eqb language "Malay" then
        {| shown_title := title_malay entry;
           shown_message := message_malay entry;
           shown_icon := entry_icon entry |}
      else
        {| shown_title := title entry;
           shown_message := message entry;
           shown_icon := entry_icon entry |}
  | None =>
      if String.eqb language "Malay" then
        {| shown_title := "Terima kasih atas maklum balas anda!";
           shown_message := "Kami menghargai input anda.";
           shown_icon := Memo |}
      else
        {| shown_title := "Thank you for your feedback!";
           shown_message := "We appreciate your input.";
           shown_icon := Memo |}
  end.

(** The text built by [format_expert_contact], by its two layouts. *)
Inductive contact_card :=
| OverallCard (name title email phone : string) (specialties : list string)
| ProductCard (name email phone : string).

Definition format_expert_contact (expert_info : Settings.expert)
    : contact_card :=
  match Settings.expert_title expert_info,
        Settings.expert_specialties expert_info with
  | Some t, Some sp =>
      OverallCard (Settings.expert_name expert_info) t
                  (Settings.expert_email expert_info)
                  (Settings.expert_phone expert_info) sp
  | _, _ =>
      ProductCard (Settings.expert_name expert_info)
                  (Settings.expert_email expert_info)
                  (Settings.expert_phone expert_info)
  end.

(** The dictionary returned by [process_feedback_response]. *)
Record response := {
  success : bool;
  response_template : template;
  expert_contact : option contact_card;
  show_expert_contact : bool;
  product_name : option string
}.

(** The language of the template: that of the session, English when the
    session is not live. *)
Definition session_language (session_id : string) (s : SessionManager.t)
    : string :=
  match SessionManager.get_session_info session_id s with
  | Some session_info => SessionManager.language session_info
  | None => "English"
  end.

(** The live registry together with the durable layer. *)
Definition world : Type := SessionManager.t * Database.t.

Definition get_session_product (session_id : string)
    (s : SessionManager.t) : option string :=
  match SessionManager.get_session_info session_id s with
  | Some session_info => SessionManager.product_involved session_info
  | None => None
  end.

(** [save_feedback]: [insert] is the outcome of the insertion in the
    durable layer, were it attempted. *)
Definition save_feedback (insert : outcome bool)
    (session_id satisfaction_rating : string) (w : world) : bool * world :=
  let satisfaction_rating :=
    if String.eqb satisfaction_rating "skipped" then "unsatisfied"
    else satisfaction_rating in
  if negb (PyStr.mem satisfaction_rating ["satisfied"; "unsatisfied"])
  then (false, w)
  else
    let '(saved, db') :=
      Database.save_feedback insert session_id satisfaction_rating (snd w) in
    match saved with
    | Returned true =>
        (true,
         (if String.eqb satisfaction_rating "unsatisfied"
          then SessionManager.mark_expert_contacted session_id (fst w)
          else fst w,
          db'))
    | Returned false => (false, (fst w, db'))
    | Raised => (false, (fst w, db'))
    end.

Section Experts.

Variable IOT_PRODUCTS : list Settings.product.
Variable OVERALL_EXPERTS : list Settings.expert.

(** The search of [get_expert_contact] through [IOT_PRODUCTS]. *)
Fixpoint find_product_expert (products : list Settings.product)
    (product_name : string) : option Settings.expert :=
  match products with
  | [] => None
  | product :: products' =>
      if String.eqb (Settings.name product) product_name
      then Some (Settings.expert_of product)
      else find_product_expert products' product_name
  end.

Definition get_expert_contact (product_name : option string)
    : option Settings.expert :=
  let found :=
    match product_name with
    | Some n =>
        if PyStr.truthy n then find_product_expert IOT_PRODUCTS n
        else None
    | None => None
    end in
  match found with
  | Some expert_info => Some expert_info
  | None =>
      match OVERALL_EXPERTS with
      | overall_expert :: _ => Some overall_expert
      | [] => None
      end
  end.

Definition process_feedback_response (insert : outcome bool)
    (session_id satisfaction_rating : string) (w : world)
    : response * world :=
  let product_name := get_session_product session_id (fst w) in
  let expert_info := get_expert_contact product_name in
  let original_rating := satisfaction_rating in
  let satisfaction_rating :=
    if String.eqb satisfaction_rating "skipped" then "unsatisfied"
    else satisfaction_rating in
  let '(feedback_saved, w') :=
    save_feedback insert session_id satisfaction_rating w in
  let session_language := session_language session_id (fst w') in
  let template := get_feedback_template original_rating session_language in
  ({| success := feedback_saved;
      response_template := template;
      expert_contact := option_map format_expert_contact expert_info;
      show_expert_contact :=
        match expert_info with Some _ => true | None => false end;
      product_name := product_name |},
   w').

End Experts.

End FeedbackManager.

(** ** Runs of the session manager *)

Module Registry.

Import SessionManager.

(** The question count of an identifier, as the gate and the handlers
    read it: [session_counters.get(session_id, 0)]. *)
Definition count (session_id : string) (s : SessionManager.t) : Z :=
  default 0 (session_counters s !! session_id).

(** The operations of a list, one after the other. *)
Fixpoint run_all (FEEDBACK_INTERVAL : Z) (ops : list op)
    (s : SessionManager.t) : SessionManager.t :=
  match ops with
  | [] => s
  | o :: ops' => run_all FEEDBACK_INTERVAL ops' (run FEEDBACK_INTERVAL o s)
  end.

(** The three dictionaries agree on the live sessions: a live session has
    a counter, equal to the [question_count] of its record, and a flag. *)
Definition consistent (s : SessionManager.t) : Prop :=
  forall session_id info,
    active_sessions s !! session_id = Some info ->
    session_counters s !! session_id = Some (question_count info)
    /\ is_Some (feedback_shown s !! session_id).

End Registry.

(** ** The other methods of the feedback recorder
    ([src/feedback_manager.py]) *)

Module FeedbackQueries.

Import FeedbackManager.

(** An entry of [feedback_options]: the label is an icon and a text. *)
Record feedback_option := {
  value : string;
  label_icon : icon;
  label_text : string;
  color : string
}.

Definition feedback_options : list feedback_option := [
  {| value := "satisfied"; label_icon := CheckMark;
     label_text := "Satisfied"; color := "green" |};
  {| value := "unsatisfied"; label_icon := CrossMark;
     label_text := "Not Satisfied"; color := "red" |}
].

(** The dictionary returned by [create_feedback_modal_data]. *)
Record modal_data := {
  modal_session_id : string;
  modal_product_name : option string;
  expert_info : option Settings.expert;
  modal_show_expert_contact : bool;
  modal_feedback_options : list feedback_option
}.

(** An entry of [get_all_experts]: the copied record with the keys
    [product] (product experts only) and [type]. *)
Record listed_expert := {
  listed : Settings.expert;
  listed_product : option string;
  listed_type : string
}.

(** [validate_feedback_rating]. *)
Definition validate_feedback_rating (rating : string) : bool :=
  PyStr.mem (PyStr.lower rating) ["satisfied"; "unsatisfied"].

Section Experts.

Variable IOT_PRODUCTS : list Settings.product.
Variable OVERALL_EXPERTS : list Settings.expert.

Definition create_feedback_modal_data (session_id : string)
    (s : SessionManager.t) : modal_data :=
  let product_name := get_session_product session_id s in
  let expert_info :=
    match product_name with
    | Some n =>
        if PyStr.truthy n
        then get_expert_contact IOT_PRODUCTS OVERALL_EXPERTS product_name
        else None
    | None => None
    end in
  {| modal_session_id := session_id;
     modal_product_name := product_name;
     expert_info := expert_info;
     modal_show_expert_contact :=
       match expert_info with Some _ => true | None => false end;
     modal_feedback_options := feedback_options |}.

Definition get_all_experts : list listed_expert :=
  map (fun product =>
         {| listed := Settings.expert_of product;
            listed_product := Some (Settings.name product);
            listed_type := "product_specific" |})
      IOT_PRODUCTS
  ++ map (fun expert =>
            {| listed := expert; listed_product := None;
               listed_type := "overall" |})
         OVERALL_EXPERTS.

(** [expert.get("specialties", [])], lower-cased. *)
Definition lowered_specialties (expert : Settings.expert) : list string :=
  map PyStr.lower (default [] (Settings.expert_specialties expert)).

(** The first loop of [get_expert_by_specialty]. *)
Fixpoint find_overall_by_specialty (experts : list Settings.expert)
    (specialty : string) : option Settings.expert :=
  match experts with
  | [] => None
  | expert :: experts' =>
      if PyStr.mem (PyStr.lower specialty) (lowered_specialties expert)
      then Some expert
      else find_overall_by_specialty experts' specialty
  end.

(** The second loop of [get_expert_by_specialty]. *)
Fixpoint find_product_by_specialty (products : list Settings.product)
    (specialty : string) : option Settings.expert :=
  match products with
  | [] => None
  | product :: products' =>
      if PyStr.contains (PyStr.lower specialty)
                        (PyStr.lower (Settings.name product))
      then Some (Settings.expert_of product)
      else find_product_by_specialty products' specialty
  end.

Definition get_expert_by_specialty (specialty : string)
    : option Settings.expert :=
  match find_overall_by_specialty OVERALL_EXPERTS specialty with
  | Some expert => Some expert
  | None =>
      match find_product_by_specialty IOT_PRODUCTS specialty with
      | Some expert => Some expert
      | None =>
          match OVERALL_EXPERTS with
          | expert :: _ => Some expert
          | [] => None
          end
      end
  end.

End Experts.

End FeedbackQueries.

(** ** The registration form ([src/ui_components.py]) *)

Module UI.




End UI.

(** ** The request handlers ([app.py])

    The signed client-side session of Flask is a [cookie], received with
    the request and returned with the reply.  The text produced by the
    responder (with its fallbacks) is an argument of [chat]. *)

Module App.

Import Database SessionManager.

Record cookie := {
  user_registered : bool;
  session_id : option string;
  user_data : option (string * string * string)
}.

(** The session after [session.clear()]. *)
Definition cleared : cookie :=
  {| user_registered := false; session_id := None; user_data := None |}.

Inductive reply (A : Type) : Type :=
| Ok (body : A)
| Error (status : Z) (error : string).
Arguments Ok {A} body.
Arguments Error {A} status error.

Record chat_body := {
  response : string;
  should_end_session : bool;
  question_count : Z;
  feedback_modal : option FeedbackQueries.modal_data
}.

Record feedback_body := {
  template : FeedbackManager.template;
  expert_contact : option FeedbackManager.contact_card;
  show_expert_contact : bool;
  product_name : option string
}.

Record status_body := {
  status_session_id : string;
  status_question_count : Z;
  status_should_show_feedback : bool;
  status_language : string;
  status_product_involved : option string
}.

(** The reply carries a body, not an error. *)
Definition is_ok {A : Type} (r : reply A) : bool :=
  match r with Ok _ => true | Error _ _ => false end.

(** Truthiness of a value read with [dict.get]. *)
Definition given (v : option string) : option string :=
  match v with
  | Some s => if PyStr.truthy s then Some s else None
  | None => None
  end.

Section Handlers.

Variable FEEDBACK_INTERVAL : Z.
Variable IOT_PRODUCTS : list Settings.product.
Variable OVERALL_EXPERTS : list Settings.expert.

(** [register_user]: the three fields of the request body, then the
    arguments of [SessionManager.create_session]. *)
Definition register_user (email phone language : option string)
    (uuid : string) (user_id : outcome (option Z)) (created : outcome bool)
    (now_created now_activity : Z) (c : cookie) (s : SessionManager.t)
    : reply string * cookie * SessionManager.t :=
  let language := default "English" language in
  match given email, given phone with
  | Some email, Some phone =>
      let '(new_session, s') :=
        create_session uuid user_id created now_created now_activity
                       email phone language s in
      match given new_session with
      | Some sid =>
          (Ok sid,
           {| user_registered := true; session_id := Some sid;
              user_data := Some (email, phone, language) |},
           s')
      | None => (Error 500 "Failed to create session", c, s')
      end
  | _, _ => (Error 400 "Email and phone are required", c, s)
  end.

(** [chat]: [saved_user] and [saved_assistant] are the outcomes of the
    two insertions in the message log, the three times are the readings
    of the clock by [is_session_active] and by the two calls of
    [add_message_to_history]. *)
Definition chat (message : option string) (response : string)
    (saved_user saved_assistant : outcome bool)
    (now_active now_user now_assistant : Z)
    (c : cookie) (s : SessionManager.t)
    : reply chat_body * SessionManager.t :=
  match given message with
  | None => (Error 400 "Message is required", s)
  | Some message =>
      match given (session_id c) with
      | None => (Error 401 "No active session", s)
      | Some sid =>
          let '(active, s1) := is_session_active now_active sid s in
          if negb active then (Error 401 "Session expired", s1)
          else
            let '(_, s2) :=
              add_message_to_history saved_user now_user sid "user"
                                     message s1 in
            let '(should_end, s3) :=
              should_show_feedback FEEDBACK_INTERVAL sid s2 in
            let '(_, s4) :=
              add_message_to_history saved_assistant now_assistant sid
                                     "assistant" response s3 in
            (Ok {| response := response;
                   should_end_session := should_end;
                   question_count := Registry.count sid s4;
                   feedback_modal :=
                     if should_end
                     then Some (FeedbackQueries.create_feedback_modal_data
                                  IOT_PRODUCTS OVERALL_EXPERTS sid s4)
                     else None |},
             s4)
      end
  end.

Definition submit_feedback (rating : option string) (insert : outcome bool)
    (c : cookie) (w : FeedbackManager.world)
    : reply feedback_body * cookie * FeedbackManager.world :=
  match given (session_id c) with
  | None => (Error 401 "No active session", c, w)
  | Some sid =>
      match given rating with
      | None => (Error 400 "Rating is required", c, w)
      | Some rating =>
          let '(result, w') :=
            FeedbackManager.process_feedback_response
              IOT_PRODUCTS OVERALL_EXPERTS insert sid rating w in
          if FeedbackManager.success result then
            (Ok {| template := FeedbackManager.response_template result;
                   expert_contact := FeedbackManager.expert_contact result;
                   show_expert_contact :=
                     FeedbackManager.show_expert_contact result;
                   product_name := FeedbackManager.product_name result |},
             cleared,
             (end_session sid (fst w'), snd w'))
          else (Error 500 "Failed to submit feedback", c, w')
      end
  end.

Definition session_status (c : cookie) (s : SessionManager.t)
    : reply status_body * SessionManager.t :=
  match given (session_id c) with
  | None => (Error 401 "No active session", s)
  | Some sid =>
      match get_session_info sid s with
      | None => (Error 404 "Session not found", s)
      | Some session_info =>
          let '(should_show, s') :=
            should_show_feedback FEEDBACK_INTERVAL sid s in
          (Ok {| status_session_id := sid;
                 status_question_count :=
                   SessionManager.question_count session_info;
                 status_should_show_feedback := should_show;
                 status_language := language session_info;
                 status_product_involved := product_involved session_info |},
           s')
      end
  end.

(** A request to one of the four handlers, with what it reads from its
    environment. *)
Inductive request :=
| Register (email phone language : option string) (uuid : string)
    (user_id : outcome (option Z)) (created : outcome bool)
    (now_created now_activity : Z) (c : cookie)
| Chat (message : option string) (response : string)
    (saved_user saved_assistant : outcome bool)
    (now_active now_user now_assistant : Z) (c : cookie)
| SubmitFeedback (rating : option string) (insert : outcome bool)
    (c : cookie)
| SessionStatus (c : cookie).

(** The state of the server after a request. *)
Definition handle (r : request) (w : FeedbackManager.world)
    : FeedbackManager.world :=
  match r with
  | Register e p l uuid uid created n1 n2 c =>
      (snd (register_user e p l uuid uid created n1 n2 c (fst w)), snd w)
  | Chat m resp su sa n1 n2 n3 c =>
      (snd (chat m resp su sa n1 n2 n3 c (fst w)), snd w)
  | SubmitFeedback rating insert c => snd (submit_feedback rating insert c w)
  | SessionStatus c => (snd (session_status c (fst w)), snd w)
  end.

Fixpoint serve (requests : list request) (w : FeedbackManager.world)
    : FeedbackManager.world :=
  match requests with
  | [] => w
  | r :: requests' => serve requests' (handle r w)
  end.

End Handlers.

(** The server when it starts: no session, an empty feedback table. *)
Definition started : FeedbackManager.world :=
  (SessionManager.init, {| Database.feedback := [] |}).

(** The flag of every identifier tells whether its count has reached the
    budget. *)
Definition flag_tracks_budget (FEEDBACK_INTERVAL : Z)
    (s : SessionManager.t) : Prop :=
  forall sid,
    feedback_triggered sid s = (FEEDBACK_INTERVAL <=? Registry.count sid s).

End App.

(** ** The words of the properties

    What the properties say of a text, stated on the characters of the
    text and not through the functions of the embedding. *)

Module Words.

(** The keyword stands in the text, between what comes before it and
    what comes after it. *)
Definition occurs_in (keyword text : string) : Prop :=
  exists before after, text = (before ++ keyword ++ after)%string.

(** The capital letters that [str.lower] replaces: those of the ASCII
    alphabet and those of Latin-1 (0xC0 to 0xDE but the multiplication
    sign). *)
Definition capital (c : ascii) : bool :=
  existsb (Ascii.eqb c) (list_ascii_of_string "ABCDEFGHIJKLMNOPQRSTUVWXYZ")
  || ((192 <=? N_of_ascii c) && (N_of_ascii c <=? 222)
      && negb (N_of_ascii c =? 215))%N.

(** [lowered text lower]: [lower] has the characters of [text], each
    capital letter replaced by the letter 32 code points above it. *)
Definition lowered (text lower : string) : Prop :=
  String.length lower = String.length text
  /\ forall i c,
       String.get i text = Some c ->
       String.get i lower
       = Some (if capital c then ascii_of_N (N_of_ascii c + 32) else c).



End Words.

(** ** Configurations and runs used as test data *)

Module Scenario.

Import Database SessionManager.

(** The budget when the environment does not set it. *)
Definition budget : Z := Settings.FEEDBACK_INTERVAL None.

(** One registered session, created at time 0. *)
Definition registered : SessionManager.t :=
  snd (create_session "s1" (Returned (Some 1)) (Returned true) 0 0
                      "ann@example.org" "0123" "English" init).

(** The session after [end_session]. *)
Definition ended : SessionManager.t := end_session "s1" registered.

(** The session after three questions and the call of the gate that
    answers [True]. *)
Definition flagged : SessionManager.t :=
  gate_run budget
    [IncrementQuestionCount "s1"; IncrementQuestionCount "s1";
     IncrementQuestionCount "s1"; ShouldShowFeedback "s1"]
    registered.

(** One hour and one second after the creation, in microseconds. *)
Definition late : Z := 3601 * 1000000.

(** The client session of a visitor registered under "s1". *)
Definition client : App.cookie :=
  {| App.user_registered := true; App.session_id := Some "s1";
     App.user_data := Some ("ann@example.org", "0123", "English") |}.

(** A visit: the registration, then two questions. *)
Definition visit : list App.request :=
  [App.Register (Some "ann@example.org") (Some "0123") None "s1"
                (Returned (Some 1)) (Returned true) 0 0 App.cleared;
   App.Chat (Some "how do I pair the hub?") "answer one"
            (Returned true) (Returned true) 10 11 12 client;
   App.Chat (Some "and the camera?") "answer two"
            (Returned true) (Returned true) 20 21 22 client].

End Scenario.

(** * Properties *)

(** ** The session store *)

Section SessionFacts.

Import Database SessionManager.

Implicit Types (s : SessionManager.t) (sid x : string).

Lemma live_spec sid s :
  live sid s = true <-> is_Some (active_sessions s !! sid).
Proof. unfold live. apply bool_decide_eq_true. Qed.

Lemma live_false sid s :
  live sid s = false <-> active_sessions s !! sid = None.
Proof.
  unfold live. rewrite bool_decide_eq_false, <- eq_None_not_Some. tauto.
Qed.

Lemma entries_eq sid s s' :
  entries sid s' = entries sid s ->
  active_sessions s' !! sid = active_sessions s !! sid
  /\ session_counters s' !! sid = session_counters s !! sid
  /\ feedback_shown s' !! sid = feedback_shown s !! sid.
Proof. unfold entries. intros H. injection H. auto. Qed.

(** [end_session x] empties the three slots of [x] when [x] is live and
    touches nothing else. *)
Lemma end_session_entries x sid s :
  entries sid (end_session x s)
  = if bool_decide (x = sid) && live sid s then (None, None, None)
    else entries sid s.
Proof.
  unfold end_session, entries.
  destruct (bool_decide (x = sid)) eqn:E.
  - apply bool_decide_eq_true in E. subst x. simpl.
    destruct (live sid s) eqn:L.
    + apply live_spec in L. destruct L as [i Hi]. rewrite Hi. simpl.
      now rewrite !lookup_delete_eq.
    + apply live_false in L. rewrite L. simpl. now rewrite L.
  - apply bool_decide_eq_false in E. simpl.
    destruct (active_sessions s !! x); [|reflexivity]. simpl.
    now rewrite !lookup_delete_ne by assumption.
Qed.

Lemma end_session_not_live sid s :
  active_sessions (end_session sid s) !! sid = None.
Proof.
  unfold end_session.
  destruct (active_sessions s !! sid) eqn:E; simpl;
    [apply lookup_delete_eq | exact E].
Qed.

(** Ending the sessions of a list: a live session of the list loses its
    three slots, every other identifier keeps them. *)
Lemma end_sessions_entries (l : list string) sid s :
  entries sid (fold_left (fun s' x => end_session x s') l s)
  = if bool_decide (sid ∈ l) && live sid s then (None, None, None)
    else entries sid s.
Proof.
  revert s. induction l as [|x l IH]; intros s; cbn [fold_left].
  - rewrite bool_decide_eq_false_2 by apply not_elem_of_nil. reflexivity.
  - rewrite IH.
    assert (Hlive : live sid (end_session x s)
                    = negb (bool_decide (x = sid)) && live sid s).
    { pose proof (end_session_entries x sid s) as H.
      destruct (bool_decide (x = sid)) eqn:E; simpl in *.
      - apply bool_decide_eq_true in E. subst x.
        apply live_false, end_session_not_live.
      - apply entries_eq in H. destruct H as [H _].
        unfold live. now rewrite H. }
    rewrite Hlive, end_session_entries.
    destruct (bool_decide (x = sid)) eqn:E; simpl.
    + apply bool_decide_eq_true in E. subst x.
      rewrite andb_false_r.
      rewrite (bool_decide_eq_true_2 (sid ∈ sid :: l))
        by apply list_elem_of_here.
      simpl. destruct (live sid s); reflexivity.
    + apply bool_decide_eq_false in E.
      assert (Hin : bool_decide (sid ∈ x :: l) = bool_decide (sid ∈ l)).
      { apply bool_decide_ext. rewrite elem_of_cons.
  split; [intros [Hx|Hl]; [congruence|exact Hl] | auto]. }
      now rewrite Hin.
Qed.

Lemma elem_of_expired_sessions now sid s :
  sid ∈ expired_sessions now s
  <-> exists info, active_sessions s !! sid = Some info
                   /\ timed_out now info = true.
Proof.
  unfold expired_sessions. rewrite list_elem_of_In, in_map_iff. split.
  - intros [[k i] [Hk Hin]]. simpl in Hk. subst k.
    apply filter_In in Hin. destruct Hin as [Hin Ht]. simpl in Ht.
    apply list_elem_of_In, elem_of_map_to_list in Hin. eauto.
  - intros [i [Hi Ht]]. exists (sid, i). split; [reflexivity|].
    apply filter_In. split; [|exact Ht].
    now apply list_elem_of_In, elem_of_map_to_list.
Qed.

(** The sweep, slot by slot. *)
Lemma cleanup_entries now sid s :
  entries sid (cleanup_expired_sessions now s)
  = match active_sessions s !! sid with
    | Some info =>
        if timed_out now info then (None, None, None) else entries sid s
    | None => entries sid s
    end.
Proof.
  unfold cleanup_expired_sessions. rewrite end_sessions_entries.
  destruct (active_sessions s !! sid) as [info|] eqn:E.
  - assert (L : live sid s = true) by (apply live_spec; eauto).
    rewrite L, andb_true_r.
    destruct (timed_out now info) eqn:T.
    + rewrite bool_decide_eq_true_2; [reflexivity|].
      apply elem_of_expired_sessions. eauto.
    + rewrite bool_decide_eq_false_2; [reflexivity|].
      rewrite elem_of_expired_sessions. intros [i [Hi Ht]]. congruence.
  - assert (L : live sid s = false) by now apply live_false.
    now rewrite L, andb_false_r.
Qed.

Lemma increment_feedback_shown sid s :
feedback_shown (snd (increment_question_count sid s)) = feedback_shown s.
Proof. reflexivity. Qed.

Lemma feedback_triggered_insert x sid b s a c :
feedback_triggered sid
  {| active_sessions := a; session_counters := c;
     feedback_shown := <[x := b]> (feedback_shown s) |}
= if bool_decide (x = sid) then b else feedback_triggered sid s.
Proof.
unfold feedback_triggered. simpl. case_bool_decide as E.
- subst x. now rewrite lookup_insert_eq.
- now rewrite lookup_insert_ne.
Qed.

(** The gate answers [True] exactly when the budget is reached and the
    flag is unset, and a [True] answer sets the flag. *)
Lemma should_show_feedback_spec (FI : Z) sid s :
should_show_feedback FI sid s
= if (FI <=? default 0 (session_counters s !! sid))
     && negb (feedback_triggered sid s)
  then (true,
        {| active_sessions := active_sessions s;
           session_counters := session_counters s;
           feedback_shown := <[sid := true]> (feedback_shown s) |})
  else (false, s).
Proof. reflexivity. Qed.

(** A step of the gate never unsets a flag, and answers [True] for a
    session only by setting its flag. *)
Lemma gate_step_flag (FI : Z) (c : gate_call) sid s :
let '(x, answer, s') := gate_step FI c s in
if answer && String.eqb x sid
then feedback_triggered sid s = false /\ feedback_triggered sid s' = true
else feedback_triggered sid s = true -> feedback_triggered sid s' = true.
Proof.
destruct c as [x|x|x]; cbn [gate_step]; unfold should_end_session;
  try (cbn [andb]; intros H; exact H);
  rewrite should_show_feedback_spec;
  destruct ((FI <=? default 0 (session_counters s !! x))
            && negb (feedback_triggered x s)) eqn:G; cbn [fst snd andb];
  try (intros H; exact H);
  (destruct (String.eqb x sid) eqn:E;
   [ apply String.eqb_eq in E; subst x;
     apply andb_true_iff in G; destruct G as [_ G];
     apply negb_true_iff in G; split; [exact G|];
     rewrite feedback_triggered_insert;
     now rewrite bool_decide_eq_true_2
   | apply String.eqb_neq in E; intros H;
     rewrite feedback_triggered_insert;
     now rewrite bool_decide_eq_false_2 ]).
Qed.

Lemma triggers_budget (FI : Z) sid (calls : list gate_call) s :
(triggers FI sid calls s + (if feedback_triggered sid s then 1 else 0) <= 1)%nat.
Proof.
revert s. induction calls as [|c calls IH]; intros s; cbn [triggers].
- destruct (feedback_triggered sid s); lia.
- pose proof (gate_step_flag FI c sid s) as Hstep.
  destruct (gate_step FI c s) as [[x answer] s'].
  specialize (IH s').
  destruct (answer && String.eqb x sid).
  + destruct Hstep as [H0 H1]. rewrite H0. rewrite H1 in IH. lia.
  + destruct (feedback_triggered sid s).
    * rewrite Hstep in IH by reflexivity. lia.
    * destruct (feedback_triggered sid s'); lia.
Qed.

(** C1: in any sequence of gate calls and question-count increments, at
    most one call returns true for a session; a call returns true exactly
    when the question count has reached the budget and the flag is still
    false; that call sets the flag, and once the flag is set no later call
    of the sequence returns true.  [should_end_session] is the same
    gate. *)
Theorem feedback_gate_fires_at_most_once
  (FEEDBACK_INTERVAL : Z) (sid : string) (calls : list gate_call)
  (s : SessionManager.t) :
(triggers FEEDBACK_INTERVAL sid calls s
 + (if feedback_triggered sid s then 1 else 0) <= 1)%nat
/\ fst (should_show_feedback FEEDBACK_INTERVAL sid s)
   = (FEEDBACK_INTERVAL <=? default 0 (session_counters s !! sid))
     && negb (feedback_triggered sid s)
/\ feedback_triggered sid (snd (should_show_feedback FEEDBACK_INTERVAL sid s))
   = fst (should_show_feedback FEEDBACK_INTERVAL sid s)
     || feedback_triggered sid s
/\ should_end_session FEEDBACK_INTERVAL sid s
   = should_show_feedback FEEDBACK_INTERVAL sid s.
Proof.
split; [apply triggers_budget|].
unfold should_end_session. rewrite should_show_feedback_spec.
destruct ((FEEDBACK_INTERVAL <=? default 0 (session_counters s !! sid))
          && negb (feedback_triggered sid s)) eqn:G;
  cbn [fst snd orb]; repeat split.
rewrite feedback_triggered_insert. now rewrite bool_decide_eq_true_2.
Qed.

Lemma entries_none_not_live sid s :
entries sid s = (None, None, None) -> live sid s = false.
Proof. intros H. apply live_false. unfold entries in H. congruence. Qed.

Lemma entries_same sid s s' :
entries sid s' = entries sid s ->
live sid s' = live sid s
/\ feedback_triggered sid s' = feedback_triggered sid s.
Proof.
intros H. apply entries_eq in H. destruct H as (Ha & _ & Hf).
unfold live, feedback_triggered. now rewrite Ha, Hf.
Qed.

(** Ending sessions either removes a session or leaves its flag alone. *)
Lemma ended_or_same_flag sid s s' :
(entries sid s' = (None, None, None) \/ entries sid s' = entries sid s) ->
feedback_triggered sid s = true -> live sid s' = true ->
feedback_triggered sid s' = true.
Proof.
intros [H|H] Hf Hl.
- apply entries_none_not_live in H. congruence.
- apply entries_same in H. destruct H as [_ H]. congruence.
Qed.

Lemma end_session_cases x sid s :
entries sid (end_session x s) = (None, None, None)
\/ entries sid (end_session x s) = entries sid s.
Proof.
rewrite end_session_entries.
destruct (bool_decide (x = sid) && live sid s); auto.
Qed.

Lemma cleanup_cases now sid s :
entries sid (cleanup_expired_sessions now s) = (None, None, None)
\/ entries sid (cleanup_expired_sessions now s) = entries sid s.
Proof.
rewrite cleanup_entries.
destruct (active_sessions s !! sid) as [i|]; auto.
destruct (timed_out now i); auto.
Qed.

Lemma update_session_activity_flag now x s :
feedback_shown (update_session_activity now x s) = feedback_shown s.
Proof.
unfold update_session_activity. now destruct (active_sessions s !! x).
Qed.

(** C2 (as amended): once [end_session] has run for an identifier,
    [update_session_activity] leaves the state as it is, and
    [increment_question_count] does not bring the session back: the live
    record and the feedback flag stay as they were, so that
    [get_session_info] finds nothing and [is_session_active] answers
    false.  Neither call reports a not-found outcome of its own. *)
Theorem ended_session_is_not_revived (now : Z) (sid : string)
  (s : SessionManager.t) :
let ended := end_session sid s in
let asked := snd (increment_question_count sid ended) in
active_sessions ended !! sid = None
/\ update_session_activity now sid ended = ended
/\ active_sessions asked = active_sessions ended
/\ feedback_shown asked = feedback_shown ended
/\ get_session_info sid asked = None
/\ is_session_active now sid asked = (false, asked).
Proof.
intros ended asked.
assert (E : active_sessions ended !! sid = None)
  by apply end_session_not_live.
assert (A : active_sessions asked = active_sessions ended).
{ unfold asked, increment_question_count. cbn [snd active_sessions].
  now rewrite E. }
repeat split.
- exact E.
- unfold update_session_activity. now rewrite E.
- exact A.
- unfold get_session_info. now rewrite A, E.
- unfold is_session_active. now rewrite A, E.
Qed.

(** C2, the claim as written fails: on the identifier of a session that
    was registered and then ended, [increment_question_count] returns the
    positive count 1 and leaves a counter entry behind. *)
Lemma increment_after_end_leaves_counter :
live "s1" Scenario.registered = true
/\ entries "s1" Scenario.ended = (None, None, None)
/\ fst (increment_question_count "s1" Scenario.ended) = 1
/\ session_counters (snd (increment_question_count "s1" Scenario.ended))
   !! "s1" = Some 1.
Proof. vm_compute. repeat split. Qed.

Lemma create_session_flag sid x uid created n1 n2 e p l s :
creates sid (CreateSession x uid created n1 n2 e p l) s = false ->
feedback_triggered sid (snd (create_session x uid created n1 n2 e p l s))
= feedback_triggered sid s.
Proof.
unfold creates, create_session.
destruct uid as [uid|]; [|reflexivity].
destruct (negb (truthy_id uid)); [reflexivity|].
destruct created as [[|]|]; try reflexivity.
cbn [fst snd]. intros E. apply String.eqb_neq in E.
rewrite feedback_triggered_insert. now rewrite bool_decide_eq_false_2.
Qed.

Lemma should_show_feedback_keeps_flag (FI : Z) x sid s :
feedback_triggered sid s = true ->
feedback_triggered sid (snd (should_show_feedback FI x s)) = true.
Proof.
intros H. rewrite should_show_feedback_spec.
destruct ((FI <=? default 0 (session_counters s !! x))
          && negb (feedback_triggered x s)); cbn [snd]; [|exact H].
rewrite feedback_triggered_insert. now case_bool_decide.
Qed.

(** C3 (as amended): for every state in which the flag of a session is
    set and every operation of the manager other than
    [reset_feedback_flag], the flag is still set afterwards as long as the
    session is live ([create_session] always draws a fresh identifier, so
    it is not taken to generate the identifier of the session). *)
Theorem feedback_flag_kept_unless_reset
  (FEEDBACK_INTERVAL : Z) (o : op) (sid : string) (s : SessionManager.t) :
feedback_triggered sid s = true ->
is_reset o = false ->
creates sid o s = false ->
live sid (run FEEDBACK_INTERVAL o s) = true ->
feedback_triggered sid (run FEEDBACK_INTERVAL o s) = true.
Proof.
intros Hf Hr Hc.
destruct o as [x uid created n1 n2 e p l|x|now x|x|x|x|x|added now x mt c
               |x|x p|x|now x|x|x|now|]; cbn [run]; intros Hl;
  try discriminate Hr; try exact Hf.
- now rewrite create_session_flag.
- unfold feedback_triggered. now rewrite update_session_activity_flag.
- now apply should_show_feedback_keeps_flag.
- now apply should_show_feedback_keeps_flag.
- cbn [force_end_session snd] in *.
  eapply ended_or_same_flag; eauto using end_session_cases.
- revert Hl. unfold add_message_to_history.
  destruct added as [[|]|]; cbn [snd]; intros Hl; try exact Hf.
  destruct (String.eqb mt "user"); unfold feedback_triggered;
    cbn [snd increment_question_count feedback_shown];
    now rewrite update_session_activity_flag.
- unfold update_session_product.
  now destruct (active_sessions s !! x).
- unfold mark_expert_contacted.
  now destruct (active_sessions s !! x).
- revert Hl. unfold is_session_active.
  destruct (active_sessions s !! x) as [i|]; [|intros _; exact Hf].
  destruct (timed_out now i); cbn [snd]; intros Hl; [|exact Hf].
  eapply ended_or_same_flag; eauto using end_session_cases.
- eapply ended_or_same_flag; eauto using end_session_cases.
- eapply ended_or_same_flag; eauto using cleanup_cases.
Qed.

Lemma feedback_flag_kept_unless_reset_witness :
feedback_triggered "s1" Scenario.flagged = true
/\ feedback_triggered "s1"
     (run Scenario.budget (IncrementCount "s1") Scenario.flagged) = true.
Proof.
split; [vm_compute; reflexivity|].
apply (feedback_flag_kept_unless_reset Scenario.budget
         (IncrementCount "s1") "s1" Scenario.flagged);
  vm_compute; reflexivity.
Defined.

(** C3, the claim as written fails: on the live session that has asked
    its three questions and triggered the gate, [reset_feedback_flag]
    sets the flag back to false and the session stays live. *)
Lemma reset_feedback_flag_unsets_flag :
live "s1" Scenario.flagged = true
/\ feedback_triggered "s1" Scenario.flagged = true
/\ live "s1" (reset_feedback_flag "s1" Scenario.flagged) = true
/\ feedback_triggered "s1" (reset_feedback_flag "s1" Scenario.flagged)
   = false.
Proof. vm_compute. repeat split. Qed.

(** C6: a live session whose last activity is older than the timeout is
    reported inactive by [is_session_active], which removes it, so that
    [get_session_info] finds nothing afterwards; a live session within
    the timeout is reported active and kept.  [cleanup_expired_sessions]
    removes the timed-out live sessions and leaves every other identifier
    as it was. *)
Theorem timeout_evicts_session (now : Z) (sid : string)
  (s : SessionManager.t) :
match active_sessions s !! sid with
| Some info =>
    timed_out now info
    = (Settings.SESSION_TIMEOUT * 1000000 <? now - last_activity info)
    /\ if timed_out now info then
         is_session_active now sid s = (false, end_session sid s)
         /\ entries sid (snd (is_session_active now sid s))
            = (None, None, None)
         /\ get_session_info sid (snd (is_session_active now sid s)) = None
         /\ entries sid (cleanup_expired_sessions now s) = (None, None, None)
       else
         is_session_active now sid s = (true, s)
         /\ entries sid (cleanup_expired_sessions now s) = entries sid s
| None =>
    is_session_active now sid s = (false, s)
    /\ entries sid (cleanup_expired_sessions now s) = entries sid s
end.
Proof.
pose proof (cleanup_entries now sid s) as Hc.
pose proof (end_session_entries sid sid s) as He.
unfold is_session_active.
destruct (active_sessions s !! sid) as [info|] eqn:E.
- split.
  { unfold timed_out, timedelta_seconds.
    apply eq_true_iff_eq. rewrite !Z.ltb_lt. lia. }
  assert (L : live sid s = true) by (apply live_spec; eauto).
  rewrite L, bool_decide_eq_true_2 in He by reflexivity. cbn [andb] in He.
  destruct (timed_out now info); cbn [snd].
  + repeat split; try assumption.
    unfold get_session_info. now rewrite end_session_not_live.
  + now split.
- now split.
Qed.

(** C7: when the durable layer does not resolve the owner or does not
    create the session row, [create_session] returns no session
    identifier and leaves the three dictionaries as they were; an
    identifier that had no record, no counter and no flag has none
    afterwards. *)
Theorem create_session_failure_leaves_no_state
  (session_id : string) (user_id : outcome (option Z))
  (created : outcome bool) (now_created now_activity : Z)
  (email phone language : string) (s : SessionManager.t) :
durable_failure user_id created = true ->
create_session session_id user_id created now_created now_activity
               email phone language s = (None, s)
/\ (entries session_id s = (None, None, None) ->
    entries session_id
      (snd (create_session session_id user_id created now_created
                           now_activity email phone language s))
    = (None, None, None)).
Proof.
unfold durable_failure, create_session. intros H.
destruct user_id as [uid|]; [|now split].
destruct (negb (truthy_id uid)); [now split|].
destruct created as [[|]|]; try discriminate H; now split.
Qed.

Lemma create_session_failure_leaves_no_state_witness :
durable_failure (Returned None) (Returned true) = true
/\ create_session "s2" (Returned None) (Returned true) 5 5
                  "bob@example.org" "0456" "Malay" Scenario.registered
   = (None, Scenario.registered).
Proof.
split; [reflexivity|].
apply (create_session_failure_leaves_no_state
         "s2" (Returned None) (Returned true) 5 5
         "bob@example.org" "0456" "Malay" Scenario.registered).
reflexivity.
Defined.

End SessionFacts.

(** ** The router: precedence of the rules *)

Section RouterPrecedence.

Import ProductRouter.

Variable ratio : string -> string -> float.
Variable products : list Settings.product.
Variable overall : list Settings.expert.

(** C4 (as amended): every input whose lower-cased, trimmed form is one
    of the exit commands is classified as exit intent and as nothing
    else, whatever later rule it also matches. *)
Theorem exit_command_classified_as_exit (query : string) :
PyStr.mem (PyStr.strip (PyStr.lower query))
          ["exit"; "quit"; "end"; "stop"; "bye"; "goodbye"] = true ->
analyze_query_intent ratio products overall query = Analysis.exit.
Proof.
intros H. unfold analyze_query_intent, is_exit_command.
change exit_commands with ["exit"; "quit"; "end"; "stop"; "bye"; "goodbye"].
now rewrite H.
Qed.

(** C10: an input whose lower-cased, trimmed form contains "en" and that
    is not an exit command is classified as the selection of English; the
    listing rule and the product routing are not consulted. *)
Theorem en_substring_selects_english (query : string) :
PyStr.contains "en" (PyStr.strip (PyStr.lower query)) = true ->
is_exit_command query = false ->
analyze_query_intent ratio products overall query
= Analysis.language (Some "English").
Proof.
intros Hen Hexit. unfold analyze_query_intent. rewrite Hexit.
assert (L : is_language_selection query = Some "English").
{ unfold is_language_selection, language_keywords.
  cbn [first_language]. unfold any_keyword_in at 1. cbn [existsb].
  rewrite Hen, orb_true_l, orb_true_r. reflexivity. }
rewrite L. reflexivity.
Qed.

End RouterPrecedence.

Lemma exit_command_classified_as_exit_witness :
PyStr.mem (PyStr.strip (PyStr.lower "  End "))
          ["exit"; "quit"; "end"; "stop"; "bye"; "goodbye"] = true
/\ PyStr.contains "en" (PyStr.strip (PyStr.lower "  End ")) = true
/\ ProductRouter.deployed "  End " = Analysis.exit.
Proof.
split; [reflexivity|]. split; [reflexivity|].
apply (exit_command_classified_as_exit Difflib.ratio Settings.IOT_PRODUCTS
         Settings.OVERALL_EXPERTS "  End ").
reflexivity.
Defined.

(** C4, the claim as written fails: "bye camera" contains the exit
    command "bye" and the product keyword "camera"; it is not classified
    as exit but routed to the camera product. *)
Lemma bye_camera_is_routed_to_product :
PyStr.contains "bye" "bye camera" = true
/\ PyStr.contains "camera" "bye camera" = true
/\ Analysis.is_exit (ProductRouter.deployed "bye camera") = false
/\ Analysis.routed_product (ProductRouter.deployed "bye camera")
   = Some "Security Camera System".
Proof. vm_compute. repeat split. Qed.

Lemma en_substring_selects_english_witness :
PyStr.contains "en" (PyStr.strip (PyStr.lower "Open the door")) = true
/\ ProductRouter.is_exit_command "Open the door" = false
/\ ProductRouter.deployed "Open the door" = Analysis.language (Some "English").
Proof.
split; [reflexivity|]. split; [reflexivity|].
apply (en_substring_selects_english Difflib.ratio Settings.IOT_PRODUCTS
         Settings.OVERALL_EXPERTS "Open the door"); reflexivity.
Defined.

(** ** The feedback recorder *)

Section FeedbackFacts.

Import Database FeedbackManager.

Variable products : list Settings.product.
Variable overall : list Settings.expert.

Lemma find_product_expert_find (l : list Settings.product) (n : string) :
find_product_expert l n
= option_map Settings.expert_of
    (find (fun p => String.eqb (Settings.name p) n) l).
Proof.
induction l as [|p l IH]; [reflexivity|]. cbn [find_product_expert find].
destruct (String.eqb (Settings.name p) n); [reflexivity|exact IH].
Qed.

Lemma router_find_product_expert (l : list Settings.product) (n : string) :
ProductRouter.find_product_expert l n = find_product_expert l n.
Proof.
induction l as [|p l IH]; [reflexivity|].
cbn [ProductRouter.find_product_expert find_product_expert].
now rewrite IH.
Qed.

Lemma find_nameless (l : list Settings.product) :
forallb (fun p => PyStr.truthy (Settings.name p)) l = true ->
find (fun p => String.eqb (Settings.name p) "") l = None.
Proof.
induction l as [|p l IH]; [reflexivity|]. cbn [forallb find].
intros H. apply andb_true_iff in H. destruct H as [Hp Hl].
destruct (Settings.name p); [discriminate Hp|]. cbn [String.eqb].
now apply IH.
Qed.

(** C9: in a configuration whose products all bear a name, the expert
    contact is the dedicated expert of the (first) product that bears the
    given name, and the first overall expert when no name is given or no
    product bears it; with at least one overall expert there is always an
    expert.  The router and the feedback recorder answer alike. *)
Theorem expert_contact_falls_back_to_overall (product_name : option string) :
forallb (fun p => PyStr.truthy (Settings.name p)) products = true ->
get_expert_contact products overall product_name
= match product_name with
  | Some n =>
      match find (fun p => String.eqb (Settings.name p) n) products with
      | Some p => Some (Settings.expert_of p)
      | None => hd_error overall
      end
  | None => hd_error overall
  end
/\ ProductRouter.get_expert_contact products overall product_name
   = get_expert_contact products overall product_name
/\ (overall <> [] ->
    get_expert_contact products overall product_name <> None).
Proof.
intros Hnames. split; [|split].
- unfold get_expert_contact. destruct product_name as [n|].
  + destruct (PyStr.truthy n) eqn:T.
    * rewrite find_product_expert_find.
      destruct (find _ products); [reflexivity|].
      now destruct overall.
    * destruct n; [|discriminate T].
      rewrite (find_nameless products Hnames). now destruct overall.
  + now destruct overall.
- unfold ProductRouter.get_expert_contact, get_expert_contact.
  destruct product_name as [n|]; [|reflexivity].
  now rewrite router_find_product_expert.
- intros Hov. unfold get_expert_contact.
  destruct (match product_name with
            | Some n =>
                if PyStr.truthy n then find_product_expert products n
                else None
            | None => None
            end); [discriminate|].
  destruct overall; [contradiction|discriminate].
Qed.

Lemma process_feedback_response_language sid rating insert
  (w : FeedbackManager.world) :
session_language sid (fst (snd (save_feedback insert sid rating w)))
= session_language sid (fst w).
Proof.
unfold save_feedback.
destruct (negb (PyStr.mem _ _)); [reflexivity|].
unfold Database.save_feedback.
destruct insert as [[|]|]; cbn [fst snd]; try reflexivity.
destruct (String.eqb _ "unsatisfied"); [|reflexivity].
unfold SessionManager.mark_expert_contacted, session_language,
  SessionManager.get_session_info.
destruct (SessionManager.active_sessions (fst w) !! sid) as [i|] eqn:E;
  cbn [SessionManager.active_sessions]; [|now rewrite E].
rewrite lookup_insert. now case_decide.
Qed.

(** What [save_feedback] does with a rating that passes the validation. *)
Lemma save_feedback_valid insert sid rating (w : FeedbackManager.world) :
String.eqb rating "skipped" = false ->
PyStr.mem rating ["satisfied"; "unsatisfied"] = true ->
fst (save_feedback insert sid rating w)
= match insert with Returned true => true | _ => false end
/\ Database.feedback (snd (snd (save_feedback insert sid rating w)))
   = match insert with
     | Returned true => Database.feedback (snd w) ++ [(sid, rating, false)]
     | _ => Database.feedback (snd w)
     end.
Proof.
intros Hs Hm. unfold save_feedback. rewrite Hs, Hm. cbn [negb].
unfold Database.save_feedback. now destruct insert as [[|]|].
Qed.

(** C8: the rating "skipped" is stored as "unsatisfied" (when the durable
    layer accepts the row) while the template returned for display is the
    one of the "skipped" category, in the language of the session; the
    ratings "satisfied" and "unsatisfied" are stored as they are; any
    other rating is rejected: the response reports a failure and neither
    the durable layer nor the live registry changes. *)
Theorem skipped_feedback_stored_as_unsatisfied
  (insert : outcome bool) (sid rating : string)
  (w : FeedbackManager.world) :
let r := process_feedback_response products overall insert sid rating w in
let accepted := match insert with Returned true => true | _ => false end in
if String.eqb rating "skipped" then
  success (fst r) = accepted
  /\ Database.feedback (snd (snd r))
     = (if accepted
        then Database.feedback (snd w) ++ [(sid, "unsatisfied", false)]
        else Database.feedback (snd w))
  /\ response_template (fst r)
     = get_feedback_template "skipped" (session_language sid (fst w))
  /\ shown_title (response_template (fst r))
     = (if String.eqb (session_language sid (fst w)) "Malay"
        then "Sesi selesai" else "Session completed")
  /\ shown_icon (response_template (fst r)) = NextTrack
else if PyStr.mem rating ["satisfied"; "unsatisfied"] then
  success (fst r) = accepted
  /\ Database.feedback (snd (snd r))
     = (if accepted
        then Database.feedback (snd w) ++ [(sid, rating, false)]
        else Database.feedback (snd w))
else
  success (fst r) = false /\ snd r = w.
Proof.
intros r accepted. subst r. unfold process_feedback_response.
destruct (String.eqb rating "skipped") eqn:Hs.
- apply String.eqb_eq in Hs. subst rating.
  pose proof (save_feedback_valid insert sid "unsatisfied" w
                eq_refl eq_refl) as [H1 H2].
  pose proof (process_feedback_response_language sid "unsatisfied" insert w)
    as HL.
  destruct (save_feedback insert sid "unsatisfied" w) as [saved w'].
  cbn [fst snd success response_template] in *. rewrite HL.
  split; [exact H1|]. split.
  { rewrite H2. subst accepted. now destruct insert as [[|]|]. }
  split; [reflexivity|].
  unfold get_feedback_template. cbn [lookup_template feedback_templates].
  cbn [String.eqb Ascii.eqb Bool.eqb andb].
  now destruct (String.eqb (session_language sid (fst w)) "Malay").
- destruct (PyStr.mem rating ["satisfied"; "unsatisfied"]) eqn:Hm.
  + pose proof (save_feedback_valid insert sid rating w Hs Hm) as [H1 H2].
    destruct (save_feedback insert sid rating w) as [saved w'].
    cbn [fst snd success] in *.
    split; [exact H1|]. rewrite H2. subst accepted.
    now destruct insert as [[|]|].
  + unfold save_feedback. rewrite Hs, Hm. cbn [negb fst snd success].
    now split.
Qed.

End FeedbackFacts.

(** ** The order of binary64 numbers *)

Section FloatOrder.

Ltac sf_cases :=
  cbn [SFcompare];
  repeat match goal with
    | s : bool |- _ => destruct s
    end;
  change PosDef.Pos.compare_cont with Pos.compare_cont;
  repeat match goal with
    | |- context [Pos.compare_cont Eq ?x ?y] =>
        change (Pos.compare_cont Eq x y) with (Pos.compare x y)
    end;
  repeat match goal with
    | |- context [Z.compare ?x ?y] => destruct (Z.compare_spec x y)
    | |- context [Pos.compare ?x ?y] => destruct (Pos.compare_spec x y)
    end;
  cbn [CompOpp]; intros;
  try discriminate; try reflexivity; try (exfalso; lia).

Lemma SFcompare_lt_trans (a b c : spec_float) :
SFcompare a b = Some Lt -> SFcompare b c = Some Lt ->
SFcompare a c = Some Lt.
Proof.
destruct a as [sa|sa| |sa ma ea], b as [sb|sb| |sb mb eb],
         c as [sc|sc| |sc mc ec]; sf_cases.
Qed.

Lemma SFcompare_lt_eq_trans (a b c : spec_float) :
SFcompare a b = Some Lt -> SFcompare b c = Some Eq ->
SFcompare a c = Some Lt.
Proof.
destruct a as [sa|sa| |sa ma ea], b as [sb|sb| |sb mb eb],
         c as [sc|sc| |sc mc ec]; sf_cases.
Qed.

Lemma SFcompare_lt_irrefl (a : spec_float) : SFcompare a a <> Some Lt.
Proof. destruct a as [sa|sa| |sa ma ea]; sf_cases. Qed.

Lemma ltb_compare (a b : float) :
(a <? b)%float = true <-> SFcompare (Prim2SF a) (Prim2SF b) = Some Lt.
Proof.
rewrite ltb_spec. unfold SFltb.
destruct (SFcompare (Prim2SF a) (Prim2SF b)) as [[| |]|];
  split; congruence.
Qed.

Lemma float_lt_trans (a b c : float) :
(a <? b)%float = true -> (b <? c)%float = true -> (a <? c)%float = true.
Proof. rewrite !ltb_compare. apply SFcompare_lt_trans. Qed.

Lemma float_lt_le_trans (a b c : float) :
(a <? b)%float = true -> (b <=? c)%float = true -> (a <? c)%float = true.
Proof.
rewrite !ltb_compare, leb_spec. unfold SFleb. intros Hab Hbc.
destruct (SFcompare (Prim2SF b) (Prim2SF c)) as [[| |]|] eqn:E;
  try discriminate Hbc.
- eapply SFcompare_lt_eq_trans; eassumption.
- eapply SFcompare_lt_trans; eassumption.
Qed.

Lemma float_lt_irrefl (a : float) : (a <? a)%float = false.
Proof.
destruct (a <? a)%float eqn:E; [|reflexivity].
apply ltb_compare in E. now apply SFcompare_lt_irrefl in E.
Qed.

End FloatOrder.

(** ** Strings *)

Section StringFacts.

Lemma lower_char_idempotent (c : ascii) :
PyStr.lower_char (PyStr.lower_char c) = PyStr.lower_char c.
Proof. destruct c as [[] [] [] [] [] [] [] []]; reflexivity. Qed.


Lemma lower_idempotent (s : string) :
PyStr.lower (PyStr.lower s) = PyStr.lower s.
Proof.
induction s as [|c s IH]; [reflexivity|]. cbn [PyStr.lower].
now rewrite lower_char_idempotent, IH.
Qed.








(** [needle in hay] holds exactly when [hay] is [needle] between two
    strings. *)
Lemma startswith_spec (s p : string) :
PyStr.startswith s p = true <-> exists t, s = (p ++ t)%string.
Proof.
revert s. induction p as [|a p IH]; intros s.
- split; [intros _; now exists s|now destruct s].
- destruct s as [|b s]; cbn [PyStr.startswith].
  + split; [discriminate|intros [t Ht]; discriminate Ht].
  + rewrite andb_true_iff, IH, Ascii.eqb_eq. split.
    * intros [-> [t ->]]. now exists t.
    * intros [t Ht]. cbn in Ht. injection Ht as -> ->. eauto.
Qed.

Lemma contains_spec (needle hay : string) :
PyStr.contains needle hay = true
<-> exists pre post, hay = (pre ++ needle ++ post)%string.
Proof.
induction hay as [|c hay IH]; cbn [PyStr.contains].
- rewrite orb_false_r, startswith_spec. split.
  + intros [t Ht]. now exists EmptyString, t.
  + intros (pre & post & H). destruct pre; [now exists post|discriminate H].
- rewrite orb_true_iff, startswith_spec, IH. split.
  + intros [[t Ht]|(pre & post & ->)].
    * now exists EmptyString, t.
    * now exists (String c pre), post.
  + intros (pre & post & H). destruct pre as [|d pre].
    * left. now exists post.
    * right. cbn in H. injection H as _ ->. eauto.
Qed.

Lemma append_assoc (a b c : string) :
((a ++ b) ++ c = a ++ (b ++ c))%string.
Proof.
induction a as [|x a IH]; [reflexivity|].
change (String x ((a ++ b) ++ c) = String x (a ++ b ++ c))%string.
now f_equal.
Qed.

(** Whatever contains a string contains what that string contains. *)
Lemma contains_trans (a b s : string) :
PyStr.contains a b = true -> PyStr.contains b s = true ->
PyStr.contains a s = true.
Proof.
rewrite !contains_spec. intros (p1 & q1 & ->) (p2 & q2 & ->).
exists (p2 ++ p1)%string, (q1 ++ q2)%string.
now rewrite !append_assoc.
Qed.

Lemma lower_char_capital (c : ascii) :
PyStr.lower_char c
= if Words.capital c then ascii_of_N (N_of_ascii c + 32) else c.
Proof. destruct c as [[] [] [] [] [] [] [] []]; reflexivity. Qed.

(** [str.lower] lowers in the sense of the properties. *)
Lemma lower_lowered (s : string) : Words.lowered s (PyStr.lower s).
Proof.
split.
- induction s as [|c s IH]; cbn [PyStr.lower String.length]; congruence.
- induction s as [|c s IH]; intros i x; [discriminate|].
  destruct i as [|i]; cbn [String.get PyStr.lower].
  + intros H. injection H as <-. now rewrite lower_char_capital.
  + apply IH.
Qed.

(** Only one string is the lowered form of a text. *)
Lemma lowered_unique (s l : string) :
Words.lowered s l -> l = PyStr.lower s.
Proof.
revert l. induction s as [|c s IH]; intros l [Hlen Hget].
- destruct l; [reflexivity|discriminate Hlen].
- destruct l as [|x l]; [discriminate Hlen|]. cbn [PyStr.lower].
  pose proof (Hget 0%nat c eq_refl) as H0. cbn [String.get] in H0.
  injection H0 as ->. rewrite lower_char_capital. f_equal.
  apply IH. split.
  + cbn [String.length] in Hlen. congruence.
  + intros i y Hy. exact (Hget (S i) y Hy).
Qed.

Lemma contains_occurs_in (needle hay : string) :
PyStr.contains needle hay = true <-> Words.occurs_in needle hay.
Proof. apply contains_spec. Qed.

End StringFacts.

(** ** The router: selection of the product *)

Section RouterSelection.

Import ProductRouter.

Variable ratio : string -> string -> float.

(** [max] returns an item that no other item exceeds. *)
Lemma max_from_is_maximum (rest : list float) (first : float) :
is_maximum (PyNum.max_from first rest) (first :: rest).
Proof.
unfold PyNum.max_from.
assert (G : forall (seen : list float) m,
          is_maximum m seen ->
          is_maximum
            (fold_left (fun m x => if (m <? x)%float then x else m) rest m)
            (seen ++ rest)).
{ induction rest as [|x rest IH]; intros seen m Hm; cbn [fold_left].
  - now rewrite app_nil_r.
  - replace (seen ++ x :: rest) with ((seen ++ [x]) ++ rest)
      by now rewrite <- app_assoc.
    apply IH. destruct Hm as [Hin Hmax].
    destruct (m <? x)%float eqn:C; split.
    + apply in_or_app. right. now left.
    + intros y Hy. apply in_app_or in Hy. destruct Hy as [Hy|[<-|[]]].
      * destruct (x <? y)%float eqn:E; [|reflexivity].
        rewrite <- (Hmax y Hy). symmetry.
        now apply float_lt_trans with x.
      * apply float_lt_irrefl.
    + apply in_or_app. now left.
    + intros y Hy. apply in_app_or in Hy. destruct Hy as [Hy|[<-|[]]].
      * now apply Hmax.
      * exact C. }
apply (G [first] first). split; [now left|].
intros x [<-|[]]. apply float_lt_irrefl.
Qed.

(** One step of the selection keeps [first_best]. *)
Lemma keep_better_first_best (scored : list (string * float))
  (best : option string * float) (p : string) (s : float) :
first_best scored best ->
first_best (scored ++ [(p, s)]) (keep_better best p s).
Proof.
intros [Hmax Hbest]. unfold keep_better.
destruct (snd best <? s)%float eqn:C.
- split; cbn [fst snd].
  + intros p0 s0 Hin. apply in_app_or in Hin.
    destruct Hin as [Hin|[Heq|[]]].
    * destruct (s <? s0)%float eqn:E; [|reflexivity].
      rewrite <- (Hmax p0 s0 Hin). symmetry.
      now apply float_lt_trans with s.
    * injection Heq as _ <-. apply float_lt_irrefl.
  + exists (length scored). split; [|split].
    * rewrite nth_error_app2 by reflexivity.
      now rewrite Nat.sub_diag.
    * destruct (fst best) as [p0|].
      -- destruct Hbest as (i & _ & Hpos & _).
         now apply float_lt_trans with (snd best).
      -- now rewrite <- Hbest.
    * intros j p' s' Hj Hnth. rewrite nth_error_app1 in Hnth by exact Hj.
      apply nth_error_In in Hnth.
      destruct (s <=? s')%float eqn:E; [|reflexivity].
      rewrite <- (Hmax p' s' Hnth). symmetry.
      now apply float_lt_le_trans with s.
- split.
  + intros p0 s0 Hin. apply in_app_or in Hin.
    destruct Hin as [Hin|[Heq|[]]]; [now apply (Hmax p0)|].
    now injection Heq as _ <-.
  + destruct (fst best) as [p0|]; [|exact Hbest].
    destruct Hbest as (i & Hnth & Hpos & Hbefore).
    assert (Hi : (i < length scored)%nat)
      by (apply nth_error_Some; congruence).
    exists i. split; [|split].
    * now rewrite nth_error_app1.
    * exact Hpos.
    * intros j p' s' Hj Hj'. apply (Hbefore j p' s' Hj).
      rewrite nth_error_app1 in Hj' by lia. exact Hj'.
Qed.

Lemma select_best_first_best (query : string)
  (table : list (string * list string)) :
forall scored best,
first_best scored best ->
first_best (scored ++ score_table ratio query table)
           (select_best ratio query table best).
Proof.
induction table as [|entry table IH]; intros scored best H.
- cbn. now rewrite app_nil_r.
- cbn [score_table map select_best fold_left].
  replace (scored
           ++ (fst entry, calculate_similarity ratio query (snd entry))
              :: map (fun e =>
                        (fst e, calculate_similarity ratio query (snd e)))
                     table)
    with ((scored
           ++ [(fst entry, calculate_similarity ratio query (snd entry))])
          ++ score_table ratio query table)
    by now rewrite <- app_assoc.
  apply IH. now apply keep_better_first_best.
Qed.

(** The count of [calculate_similarity] is the number of keywords that
    the text contains. *)
Lemma count_matches_filter (text : string) (keywords : list string) :
count_matches text keywords
= length (List.filter (fun keyword => PyStr.contains keyword text) keywords).
Proof.
induction keywords as [|k keywords IH]; [reflexivity|].
cbn [count_matches List.filter].
destruct (PyStr.contains k text); cbn [length]; congruence.
Qed.

(** The score of a product with keywords is the weighted sum of the
    claim: the keywords that occur in the lower-cased query are counted,
    and the greatest ratio is taken. *)
Lemma calculate_similarity_weighted (query keyword : string)
  (keywords : list string) :
exists (found : string -> bool) (m : float),
  (forall k, found k = true <-> Words.occurs_in k (PyStr.lower query))
  /\ is_maximum m (map (ratio (PyStr.lower query)) (keyword :: keywords))
  /\ calculate_similarity ratio query (keyword :: keywords)
     = (PrimFloat.of_uint63
          (Uint63.of_Z
             (Z.of_nat (length (List.filter found (keyword :: keywords)))))
        / PrimFloat.of_uint63
            (Uint63.of_Z (Z.of_nat (length (keyword :: keywords))))
        * 0.7
        + m * 0.3)%float.
Proof.
exists (fun k => PyStr.contains k (PyStr.lower query)).
eexists. split; [|split].
- intros k. apply contains_occurs_in.
- cbn [map]. apply max_from_is_maximum.
- unfold calculate_similarity. now rewrite count_matches_filter.
Qed.

(** C5: for a query that is not a listing request,
    [route_query_to_product] returns the best score of the selection
    loop, with the selected product when that score is not below 0.1 and
    with no product otherwise.  The selected product is the first
    declared among those of highest score: nothing scores above it and
    nothing declared before it scores as much.  The score of a product is
    0.7 times the fraction of its keywords that occur in the lower-cased
    query plus 0.3 times the greatest ratio between the lower-cased query
    and one of its keywords; the lower-cased query is the query with its
    capital letters replaced, and a keyword occurs in it when it stands
    in it between two strings. *)
Theorem route_returns_first_best_product (query : string) :
is_product_listing_request query = false ->
(exists best,
   first_best (score_table ratio query product_keywords) best
   /\ route_query_to_product ratio query
      = (if (snd best <? 0.1)%float then None else fst best, snd best))
/\ Words.lowered query (PyStr.lower query)
/\ forall product keywords,
     In (product, keywords) product_keywords ->
     exists (found : string -> bool) (m : float),
       (forall keyword,
          found keyword = true
          <-> Words.occurs_in keyword (PyStr.lower query))
       /\ is_maximum m (map (ratio (PyStr.lower query)) keywords)
       /\ calculate_similarity ratio query keywords
          = (PrimFloat.of_uint63
               (Uint63.of_Z (Z.of_nat (length (List.filter found keywords))))
             / PrimFloat.of_uint63 (Uint63.of_Z (Z.of_nat (length keywords)))
             * 0.7
             + m * 0.3)%float.
Proof.
intros Hlist. split; [|split].
- exists (select_best ratio query product_keywords (None, 0.0%float)).
  split.
  + apply (select_best_first_best query product_keywords [] (None, 0%float)).
    split; [intros p s []|reflexivity].
  + unfold route_query_to_product. rewrite Hlist.
    now destruct (snd _ <? 0.1)%float.
- apply lower_lowered.
- intros product keywords Hin.
  assert (Hne : exists k ks, keywords = k :: ks).
  { unfold product_keywords in Hin. cbn [In] in Hin.
    destruct Hin as [H|[H|[H|[H|[]]]]]; injection H as _ <-; eauto. }
  destruct Hne as (k & ks & ->). apply calculate_similarity_weighted.
Qed.

End RouterSelection.

Lemma route_returns_first_best_product_witness :
ProductRouter.is_product_listing_request "bye camera" = false
/\ exists best,
     ProductRouter.first_best
       (ProductRouter.score_table Difflib.ratio "bye camera"
                                  ProductRouter.product_keywords) best
     /\ ProductRouter.route_query_to_product Difflib.ratio "bye camera"
        = (if (snd best <? 0.1)%float then None else fst best, snd best).
Proof.
split; [reflexivity|].
exact (proj1 (route_returns_first_best_product Difflib.ratio "bye camera"
                eq_refl)).
Defined.

Lemma expert_contact_falls_back_to_overall_witness :
forallb (fun p => PyStr.truthy (Settings.name p)) Settings.IOT_PRODUCTS
= true
/\ FeedbackManager.get_expert_contact
     Settings.IOT_PRODUCTS Settings.OVERALL_EXPERTS (Some "Smart Thermostat")
   = match
       find (fun p => String.eqb (Settings.name p) "Smart Thermostat")
            Settings.IOT_PRODUCTS
     with
     | Some p => Some (Settings.expert_of p)
     | None => hd_error Settings.OVERALL_EXPERTS
     end.
Proof.
split; [reflexivity|].
exact (proj1 (expert_contact_falls_back_to_overall
                Settings.IOT_PRODUCTS Settings.OVERALL_EXPERTS
                (Some "Smart Thermostat") eq_refl)).
Defined.

(** ** Runs of the embedding on concrete inputs *)

Example thermostat_query_scores :
ProductRouter.score_table Difflib.ratio
  "I need help with my smart thermostat temperature"
  ProductRouter.product_keywords
= [("Smart Home Hub", 0.08421052631578947%float);
   ("Security Camera System", 0.0857142857142857%float);
   ("Smart Thermostat", 0.31153846153846154%float);
   ("Smart Lighting System", 0.08%float)].
Proof. vm_compute. reflexivity. Qed.

Example thermostat_query_routed :
ProductRouter.route_query_to_product Difflib.ratio
  "I need help with my smart thermostat temperature"
= (Some "Smart Thermostat", 0.31153846153846154%float).
Proof. vm_compute. reflexivity. Qed.

Example unknown_query_not_routed :
ProductRouter.route_query_to_product Difflib.ratio "xyz"
= (None, 0.05454545454545454%float).
Proof. vm_compute. reflexivity. Qed.

Example listing_query :
Analysis.is_product_listing
  (ProductRouter.deployed "What products do you have?") = true.
Proof. vm_compute. reflexivity. Qed.

Example experts_of_the_configuration :
option_map Settings.expert_name
  (FeedbackManager.get_expert_contact
     Settings.IOT_PRODUCTS Settings.OVERALL_EXPERTS
     (Some "Security Camera System")) = Some "Sarah Johnson"
/\ option_map Settings.expert_name
     (FeedbackManager.get_expert_contact
        Settings.IOT_PRODUCTS Settings.OVERALL_EXPERTS (Some "Toaster"))
   = Some "Dr. Emily Rodriguez"
/\ option_map Settings.expert_name
     (FeedbackManager.get_expert_contact
        Settings.IOT_PRODUCTS Settings.OVERALL_EXPERTS None)
   = Some "Dr. Emily Rodriguez".
Proof. vm_compute. repeat split. Qed.

Example third_question_triggers_once :
SessionManager.triggers Scenario.budget "s1"
  [SessionManager.IncrementQuestionCount "s1";
   SessionManager.ShouldShowFeedback "s1";
   SessionManager.IncrementQuestionCount "s1";
   SessionManager.ShouldShowFeedback "s1";
   SessionManager.IncrementQuestionCount "s1";
   SessionManager.ShouldShowFeedback "s1";
   SessionManager.ShouldEndSession "s1";
   SessionManager.IncrementQuestionCount "s1";
   SessionManager.ShouldShowFeedback "s1"]
  Scenario.registered = 1%nat.
Proof. vm_compute. reflexivity. Qed.

Example idle_session_is_evicted :
fst (SessionManager.is_session_active Scenario.late "s1"
       Scenario.registered) = false
/\ SessionManager.get_session_info "s1"
     (snd (SessionManager.is_session_active Scenario.late "s1"
             Scenario.registered)) = None
/\ fst (SessionManager.is_session_active (3600 * 1000000) "s1"
          Scenario.registered) = true.
Proof. vm_compute. repeat split. Qed.

Example skipped_feedback_of_registered_session :
let r :=
  FeedbackManager.process_feedback_response
    Settings.IOT_PRODUCTS Settings.OVERALL_EXPERTS
    (Database.Returned true) "s1" "skipped"
    (Scenario.registered, {| Database.feedback := [] |}) in
Database.feedback (snd (snd r)) = [("s1", "unsatisfied", false)]
/\ FeedbackManager.shown_title (FeedbackManager.response_template (fst r))
   = "Session completed".
Proof. vm_compute. split; reflexivity. Qed.

(** * Further properties of the code *)

(** ** The registry of sessions *)

Section RegistryFacts.

Import Database SessionManager Registry.

Implicit Types (s : SessionManager.t) (sid x : string).

(** Two states with the same slots everywhere are the same state. *)
Lemma state_ext s s' :
(forall sid, entries sid s' = entries sid s) -> s' = s.
Proof.
intros H. destruct s as [a c f], s' as [a' c' f'].
assert (a' = a /\ c' = c /\ f' = f) as (-> & -> & ->); [|reflexivity].
repeat split; apply map_eq; intros i; specialize (H i);
  unfold entries in H; cbn in H; congruence.
Qed.

Lemma entries_view sid s s' :
entries sid s' = entries sid s ->
count sid s' = count sid s
/\ feedback_triggered sid s' = feedback_triggered sid s
/\ live sid s' = live sid s
/\ get_session_info sid s' = get_session_info sid s.
Proof.
intros H. unfold entries in H. injection H as Ha Hc Hf.
unfold count, feedback_triggered, live, get_session_info.
now rewrite Ha, Hc, Hf.
Qed.

Lemma create_session_entries_other sid other uid created n1 n2 e p l s :
other <> sid ->
entries other (snd (create_session sid uid created n1 n2 e p l s))
= entries other s.
Proof.
intros Hne. unfold create_session.
destruct uid as [uid|]; [|reflexivity].
destruct (negb (truthy_id uid)); [reflexivity|].
destruct created as [[|]|]; try reflexivity.
unfold entries. cbn [snd active_sessions session_counters feedback_shown].
now rewrite !lookup_insert_ne by congruence.
Qed.

(** X1: when the durable layer resolves the owner and creates the row,
    [create_session] returns the generated identifier; the session is
    live, [get_session_info] returns the record just written, with no
    question asked, no product and no expert contacted, the flag is
    unset, and every other identifier keeps its slots. *)
Theorem create_session_registers
  (session_id : string) (user_id : outcome (option Z))
  (created : outcome bool) (now_created now_activity : Z)
  (email phone language : string) (s : SessionManager.t) :
durable_failure user_id created = false ->
let r := create_session session_id user_id created now_created
                        now_activity email phone language s in
fst r = Some session_id
/\ get_session_info session_id (snd r)
   = Some {| SessionManager.email := email;
             SessionManager.phone := phone;
             SessionManager.language := language;
             created_at := now_created;
             last_activity := now_activity;
             question_count := 0;
             product_involved := None;
             expert_contacted := false |}
/\ count session_id (snd r) = 0
/\ feedback_triggered session_id (snd r) = false
/\ forall other, other <> session_id ->
     entries other (snd r) = entries other s.
Proof.
intros Hok r.
assert (Hother : forall other, other <> session_id ->
                   entries other (snd r) = entries other s)
  by (intros; now apply create_session_entries_other).
subst r. revert Hother. unfold durable_failure, create_session in *.
destruct user_id as [uid|]; [|discriminate Hok].
destruct (negb (truthy_id uid)); [discriminate Hok|].
destruct created as [[|]|]; try discriminate Hok.
cbn [fst snd]. intros Hother.
unfold get_session_info, count, feedback_triggered.
cbn [active_sessions session_counters feedback_shown].
rewrite !lookup_insert_eq. cbn. repeat split. exact Hother.
Qed.

Lemma create_session_registers_witness :
durable_failure (Returned (Some 7)) (Returned true) = false
/\ fst (create_session "s2" (Returned (Some 7)) (Returned true) 5 6
          "bob@example.org" "0456" "Malay" Scenario.registered)
   = Some "s2".
Proof.
split; [reflexivity|].
exact (proj1 (create_session_registers
                "s2" (Returned (Some 7)) (Returned true) 5 6
                "bob@example.org" "0456" "Malay" Scenario.registered
                eq_refl)).
Defined.

Lemma consistent_of_entries s s' :
(forall sid, entries sid s' = (None, None, None)
             \/ entries sid s' = entries sid s) ->
consistent s -> consistent s'.
Proof.
intros H Hs sid info Hinfo. destruct (H sid) as [E|E];
  unfold entries in E; injection E as Ha Hc Hf.
- congruence.
- rewrite Hc, Hf. apply Hs. congruence.
Qed.

(** Rewriting the record of a live session without touching its
    [question_count] keeps the dictionaries in agreement. *)
Lemma consistent_update_info x (f : session_info -> session_info) info s :
active_sessions s !! x = Some info ->
question_count (f info) = question_count info ->
consistent s ->
consistent {| active_sessions := <[x := f info]> (active_sessions s);
              session_counters := session_counters s;
              feedback_shown := feedback_shown s |}.
Proof.
intros Hx Hq Hs sid i. cbn [active_sessions session_counters feedback_shown].
rewrite lookup_insert. case_decide as E.
- subst sid. intros Hi. injection Hi as <-. rewrite Hq. now apply Hs.
- now apply Hs.
Qed.

Lemma consistent_set_flag x b s :
consistent s ->
consistent {| active_sessions := active_sessions s;
              session_counters := session_counters s;
              feedback_shown := <[x := b]> (feedback_shown s) |}.
Proof.
intros Hs sid i Hi. cbn [active_sessions session_counters feedback_shown] in *.
destruct (Hs sid i Hi) as [Hc Hf]. split; [exact Hc|].
rewrite lookup_insert. now case_decide.
Qed.

Lemma update_session_activity_consistent now x s :
consistent s -> consistent (update_session_activity now x s).
Proof.
unfold update_session_activity.
destruct (active_sessions s !! x) as [i|] eqn:E; [|trivial].
now apply consistent_update_info.
Qed.

Lemma increment_consistent x s :
consistent s -> consistent (snd (increment_question_count x s)).
Proof.
intros Hs sid i. unfold increment_question_count.
cbn [snd active_sessions session_counters feedback_shown].
destruct (active_sessions s !! x) as [ix|] eqn:E.
- rewrite !lookup_insert. case_decide as D.
  + subst sid. intros Hi. injection Hi as <-. split; [reflexivity|].
    now apply (Hs x ix).
  + now apply Hs.
- intros Hi. assert (x <> sid) by congruence.
  rewrite lookup_insert_ne by assumption. now apply Hs.
Qed.

Lemma should_show_feedback_consistent (FI : Z) x s :
consistent s -> consistent (snd (should_show_feedback FI x s)).
Proof.
intros Hs. rewrite should_show_feedback_spec.
destruct (_ && _); cbn [snd]; [|exact Hs]. now apply consistent_set_flag.
Qed.

Lemma end_session_consistent x s :
consistent s -> consistent (end_session x s).
Proof.
apply consistent_of_entries. intros sid. apply end_session_cases.
Qed.

Lemma create_session_consistent sid uid created n1 n2 e p l s :
consistent s ->
consistent (snd (create_session sid uid created n1 n2 e p l s)).
Proof.
intros Hs. unfold create_session.
destruct uid as [uid|]; [|exact Hs].
destruct (negb (truthy_id uid)); [exact Hs|].
destruct created as [[|]|]; try exact Hs.
intros x i. cbn [snd active_sessions session_counters feedback_shown].
rewrite !lookup_insert. case_decide as D.
- intros Hi. injection Hi as <-. cbn. eauto.
- now apply Hs.
Qed.

Lemma run_consistent (FI : Z) (o : op) s :
consistent s -> consistent (run FI o s).
Proof.
intros Hs.
destruct o as [x uid created n1 n2 e p l|x|now x|x|x|x|x|added now x mt c
               |x|x p|x|now x|x|x|now|]; cbn [run]; try exact Hs.
- now apply create_session_consistent.
- now apply update_session_activity_consistent.
- now apply increment_consistent.
- now apply should_show_feedback_consistent.
- now apply should_show_feedback_consistent.
- now apply end_session_consistent.
- unfold add_message_to_history.
  destruct added as [[|]|]; cbn [snd]; try exact Hs.
  destruct (String.eqb mt "user").
  + now apply increment_consistent, update_session_activity_consistent.
  + now apply update_session_activity_consistent.
- unfold update_session_product.
  destruct (active_sessions s !! x) as [i|] eqn:E; [|exact Hs].
  now apply consistent_update_info.
- unfold mark_expert_contacted.
  destruct (active_sessions s !! x) as [i|] eqn:E; [|exact Hs].
  now apply consistent_update_info.
- unfold is_session_active.
  destruct (active_sessions s !! x) as [i|]; [|exact Hs].
  destruct (timed_out now i); cbn [snd]; [|exact Hs].
  now apply end_session_consistent.
- now apply end_session_consistent.
- unfold reset_feedback_flag.
  destruct (feedback_shown s !! x); [|exact Hs].
  now apply consistent_set_flag.
- revert Hs. apply consistent_of_entries. intros sid. apply cleanup_cases.
Qed.

(** X2: whatever operations the manager has run since it was created,
    its three dictionaries agree on the live sessions: each live session
    has a counter, equal to the question count of its record, and a
    feedback flag. *)
Theorem registry_stays_consistent (FEEDBACK_INTERVAL : Z) (ops : list op) :
consistent (run_all FEEDBACK_INTERVAL ops SessionManager.init).
Proof.
assert (G : forall s, consistent s ->
                      consistent (run_all FEEDBACK_INTERVAL ops s)).
{ induction ops as [|o ops IH]; intros s Hs; cbn [run_all]; [exact Hs|].
  now apply IH, run_consistent. }
apply G. intros sid info H. cbn in H. now rewrite lookup_empty in H.
Qed.

(** X3: no operation of the manager lowers the question count of a
    session that is live afterwards ([create_session] draws a fresh
    identifier, so it is not taken to generate that of the session). *)
Theorem question_count_never_decreases
  (FEEDBACK_INTERVAL : Z) (o : op) (sid : string) (s : SessionManager.t) :
creates sid o s = false ->
live sid (run FEEDBACK_INTERVAL o s) = true ->
count sid s <= count sid (run FEEDBACK_INTERVAL o s).
Proof.
intros Hc.
assert (Hend : forall s',
          entries sid s' = (None, None, None)
          \/ entries sid s' = entries sid s ->
          live sid s' = true -> count sid s <= count sid s').
{ intros s' [E|E] Hl.
  - apply entries_none_not_live in E. congruence.
  - apply entries_view in E. destruct E as [E _]. lia. }
assert (Hinc : forall x s0,
          count sid s0 <= count sid (snd (increment_question_count x s0))).
{ intros x s0. unfold count, increment_question_count.
  cbn [snd session_counters]. rewrite lookup_insert.
  case_decide; [subst|]; cbn; lia. }
assert (Htouch : forall now x,
          count sid (update_session_activity now x s) = count sid s).
{ intros now x. unfold update_session_activity.
  now destruct (active_sessions s !! x). }
destruct o as [x uid created n1 n2 e p l|x|now x|x|x|x|x|added now x mt c
               |x|x p|x|now x|x|x|now|]; cbn [run]; intros Hl;
  try reflexivity.
- unfold creates in Hc.
  pose proof (create_session_entries_other x sid uid created n1 n2 e p l s)
    as Ho.
  destruct (create_session x uid created n1 n2 e p l s)
    as [[sid'|] s'] eqn:C; cbn [fst snd] in *.
  + assert (sid' = x).
    { unfold create_session in C. destruct uid as [uid|]; [|discriminate C].
      destruct (negb (truthy_id uid)); [discriminate C|].
      destruct created as [[|]|]; congruence. }
    subst sid'. apply String.eqb_neq in Hc.
    apply Hend; [right; apply Ho; congruence | exact Hl].
  + assert (s' = s); [|subst; lia].
    unfold create_session in C. destruct uid as [uid|]; [|congruence].
    destruct (negb (truthy_id uid)); [congruence|].
    destruct created as [[|]|]; congruence.
- rewrite Htouch. lia.
- apply Hinc.
- rewrite should_show_feedback_spec.
  destruct (_ && _); cbn [snd]; reflexivity.
- unfold should_end_session. rewrite should_show_feedback_spec.
  destruct (_ && _); cbn [snd]; reflexivity.
- apply Hend; [apply end_session_cases | exact Hl].
- unfold add_message_to_history.
  destruct added as [[|]|]; cbn [snd]; try reflexivity.
  destruct (String.eqb mt "user").
  + etransitivity; [|apply Hinc]. rewrite Htouch. lia.
  + rewrite Htouch. lia.
- unfold update_session_product. now destruct (active_sessions s !! x).
- unfold mark_expert_contacted. now destruct (active_sessions s !! x).
- revert Hl. unfold is_session_active.
  destruct (active_sessions s !! x) as [i|]; [|reflexivity].
  destruct (timed_out now i); cbn [snd]; [|reflexivity].
  apply Hend, end_session_cases.
- apply Hend; [apply end_session_cases | exact Hl].
- unfold reset_feedback_flag. now destruct (feedback_shown s !! x).
- apply Hend; [apply cleanup_cases | exact Hl].
Qed.

Lemma question_count_never_decreases_witness :
creates "s1" (IncrementCount "s1") Scenario.flagged = false
/\ live "s1" (run Scenario.budget (IncrementCount "s1") Scenario.flagged)
   = true
/\ count "s1" Scenario.flagged
   <= count "s1"
        (run Scenario.budget (IncrementCount "s1") Scenario.flagged).
Proof.
split; [reflexivity|]. split; [vm_compute; reflexivity|].
apply (question_count_never_decreases Scenario.budget
         (IncrementCount "s1") "s1" Scenario.flagged);
  vm_compute; reflexivity.
Defined.

(** X4: ending a session twice is ending it once, and two sessions can
    be ended in either order. *)
Theorem end_session_idempotent_and_commutative (a b : string)
  (s : SessionManager.t) :
end_session a (end_session a s) = end_session a s
/\ end_session a (end_session b s) = end_session b (end_session a s).
Proof.
split; apply state_ext; intros sid; rewrite !end_session_entries.
- destruct (bool_decide (a = sid)) eqn:E; cbn [andb]; [|reflexivity].
  apply bool_decide_eq_true in E. subst a.
  rewrite (proj2 (live_false sid (end_session sid s)))
    by apply end_session_not_live.
  cbn [andb]. rewrite ?bool_decide_eq_true_2 by reflexivity.
  now destruct (live sid s).
- assert (L : forall x y, x <> sid ->
                live sid (end_session x y) = live sid y).
  { intros x y Hx. pose proof (end_session_entries x sid y) as H.
    rewrite bool_decide_eq_false_2 in H by exact Hx.
    now apply entries_view in H. }
  destruct (bool_decide (a = sid)) eqn:Ea, (bool_decide (b = sid)) eqn:Eb;
    cbn [andb];
    try apply bool_decide_eq_true in Ea; try apply bool_decide_eq_true in Eb;
    try apply bool_decide_eq_false in Ea;
    try apply bool_decide_eq_false in Eb; subst.
  + reflexivity.
  + rewrite (L b s Eb). now destruct (live sid s).
  + rewrite (L a s Ea). now destruct (live sid s).
  + reflexivity.
Qed.

(** X5: after [cleanup_expired_sessions] no live session is timed out at
    the time of the sweep, and a second sweep at that time changes
    nothing. *)
Theorem cleanup_leaves_no_expired_session (now : Z) (s : SessionManager.t) :
(forall sid info,
   active_sessions (cleanup_expired_sessions now s) !! sid = Some info ->
   timed_out now info = false)
/\ cleanup_expired_sessions now (cleanup_expired_sessions now s)
   = cleanup_expired_sessions now s.
Proof.
assert (H : forall sid info,
          active_sessions (cleanup_expired_sessions now s) !! sid
          = Some info -> timed_out now info = false).
{ intros sid info Hi. pose proof (cleanup_entries now sid s) as E.
  destruct (active_sessions s !! sid) as [i|] eqn:A.
  - destruct (timed_out now i) eqn:T.
    + unfold entries in E. injection E as Ea _ _. congruence.
    + apply entries_eq in E. destruct E as [Ea _]. congruence.
  - apply entries_eq in E. destruct E as [Ea _]. congruence. }
split; [exact H|].
apply state_ext. intros sid. rewrite cleanup_entries.
destruct (active_sessions (cleanup_expired_sessions now s) !! sid)
  as [i|] eqn:E; [|reflexivity].
now rewrite (H sid i E).
Qed.

(** X6: a live session whose activity is recorded at some time is
    reported active, and is left as it is, at any time up to one timeout
    later. *)
Theorem touched_session_stays_active (now later : Z) (sid : string)
  (s : SessionManager.t) :
live sid s = true ->
later - now <= timedelta_seconds Settings.SESSION_TIMEOUT ->
is_session_active later sid (update_session_activity now sid s)
= (true, update_session_activity now sid s).
Proof.
intros Hl Ht. apply live_spec in Hl. destruct Hl as [i Hi].
unfold update_session_activity. rewrite Hi.
unfold is_session_active. cbn [active_sessions].
rewrite lookup_insert_eq.
replace (timed_out later (set_last_activity now i)) with false;
  [reflexivity|].
symmetry. unfold timed_out. cbn [last_activity set_last_activity].
apply Z.ltb_ge. lia.
Qed.

Lemma touched_session_stays_active_witness :
live "s1" Scenario.registered = true
/\ 3600000000 - 0 <= timedelta_seconds Settings.SESSION_TIMEOUT
/\ fst (is_session_active 3600000000 "s1"
          (update_session_activity 0 "s1" Scenario.registered)) = true.
Proof.
split; [vm_compute; reflexivity|]. split; [vm_compute; discriminate|].
rewrite (touched_session_stays_active 0 3600000000 "s1"
           Scenario.registered);
  [reflexivity | vm_compute; reflexivity | vm_compute; discriminate].
Defined.

Lemma update_session_activity_entries_other now x other s :
other <> x ->
entries other (update_session_activity now x s) = entries other s.
Proof.
intros Hne. unfold update_session_activity.
destruct (active_sessions s !! x); [|reflexivity].
unfold entries. cbn [active_sessions session_counters feedback_shown].
now rewrite lookup_insert_ne by congruence.
Qed.

Lemma update_session_activity_count now x sid s :
count sid (update_session_activity now x s) = count sid s.
Proof.
unfold update_session_activity. now destruct (active_sessions s !! x).
Qed.

Lemma increment_entries_other x other s :
other <> x ->
entries other (snd (increment_question_count x s)) = entries other s.
Proof.
intros Hne. unfold increment_question_count, entries.
cbn [snd active_sessions session_counters feedback_shown].
rewrite lookup_insert_ne by congruence.
destruct (active_sessions s !! x); [|reflexivity].
now rewrite lookup_insert_ne by congruence.
Qed.

Lemma increment_count x s :
count x (snd (increment_question_count x s)) = count x s + 1.
Proof.
unfold count, increment_question_count. cbn [snd session_counters].
now rewrite lookup_insert_eq.
Qed.

Lemma add_message_entries_other added now x mt content other s :
other <> x ->
entries other (snd (add_message_to_history added now x mt content s))
= entries other s.
Proof.
intros Hne. unfold add_message_to_history.
destruct added as [[|]|]; cbn [snd]; try reflexivity.
destruct (String.eqb mt "user").
- rewrite increment_entries_other by exact Hne.
  now apply update_session_activity_entries_other.
- now apply update_session_activity_entries_other.
Qed.

Lemma add_message_count added now x mt content s :
count x (snd (add_message_to_history added now x mt content s))
= count x s
  + (if match added with Returned true => true | _ => false end
        && String.eqb mt "user"
     then 1 else 0).
Proof.
unfold add_message_to_history.
destruct added as [[|]|]; cbn [snd andb]; try lia.
destruct (String.eqb mt "user").
- now rewrite increment_count, update_session_activity_count.
- rewrite update_session_activity_count. lia.
Qed.

Lemma add_message_flags added now x mt content s :
feedback_shown (snd (add_message_to_history added now x mt content s))
= feedback_shown s.
Proof.
unfold add_message_to_history.
destruct added as [[|]|]; cbn [snd]; try reflexivity.
destruct (String.eqb mt "user");
  cbn [snd increment_question_count feedback_shown];
  apply update_session_activity_flag.
Qed.

(** X7: [add_message_to_history] reports whether the durable layer
    stored the message; a stored message of type "user" adds one to the
    question count of its session, any other stored message leaves the
    count alone, and a message that is not stored changes nothing.  The
    feedback flags and the other sessions are never touched. *)
Theorem add_message_counts_stored_user_messages
  (added : outcome bool) (now : Z) (sid message_type content : string)
  (s : SessionManager.t) :
let r := add_message_to_history added now sid message_type content s in
let stored := match added with Returned true => true | _ => false end in
fst r = stored
/\ count sid (snd r)
   = count sid s
     + (if stored && String.eqb message_type "user" then 1 else 0)
/\ (if stored then True else snd r = s)
/\ feedback_shown (snd r) = feedback_shown s
/\ forall other, other <> sid -> entries other (snd r) = entries other s.
Proof.
intros r stored. subst r stored. repeat split.
- unfold add_message_to_history. now destruct added as [[|]|].
- apply add_message_count.
- unfold add_message_to_history. now destruct added as [[|]|].
- apply add_message_flags.
- intros other Hne. now apply add_message_entries_other.
Qed.

Lemma is_session_active_entries_other now x other s :
other <> x ->
entries other (snd (is_session_active now x s)) = entries other s.
Proof.
intros Hne. unfold is_session_active.
destruct (active_sessions s !! x) as [i|]; [|reflexivity].
destruct (timed_out now i); cbn [snd]; [|reflexivity].
rewrite end_session_entries.
now rewrite bool_decide_eq_false_2 by congruence.
Qed.

Lemma is_session_active_answer now sid s :
if fst (is_session_active now sid s)
then live sid s = true /\ snd (is_session_active now sid s) = s
else live sid (snd (is_session_active now sid s)) = false.
Proof.
unfold is_session_active.
destruct (active_sessions s !! sid) as [i|] eqn:E.
- destruct (timed_out now i); cbn [fst snd].
  + apply live_false, end_session_not_live.
  + split; [|reflexivity]. apply live_spec. eauto.
- cbn [fst snd]. now apply live_false.
Qed.

(** X8: [is_session_active] answers true only for a live session, which
    it then leaves as it is, and whatever it answers it never touches
    another session. *)
Theorem lazy_expiry_is_local (now : Z) (sid : string)
  (s : SessionManager.t) :
(if fst (is_session_active now sid s)
 then live sid s = true /\ snd (is_session_active now sid s) = s
 else live sid (snd (is_session_active now sid s)) = false)
/\ forall other, other <> sid ->
     entries other (snd (is_session_active now sid s)) = entries other s.
Proof.
split; [apply is_session_active_answer|].
intros. now apply is_session_active_entries_other.
Qed.

(** X9: for an identifier that has neither a counter nor a flag, the gate
    answers true exactly when the budget is zero or negative; with a
    positive budget it leaves the state as it is. *)
Theorem gate_on_untracked_session (FEEDBACK_INTERVAL : Z) (sid : string)
  (s : SessionManager.t) :
session_counters s !! sid = None ->
feedback_shown s !! sid = None ->
fst (should_show_feedback FEEDBACK_INTERVAL sid s) = (FEEDBACK_INTERVAL <=? 0)
/\ (if FEEDBACK_INTERVAL <=? 0
    then feedback_shown (snd (should_show_feedback FEEDBACK_INTERVAL sid s))
         !! sid = Some true
    else snd (should_show_feedback FEEDBACK_INTERVAL sid s) = s).
Proof.
intros Hc Hf. unfold should_show_feedback. rewrite Hc, Hf. cbn [default negb].
rewrite andb_true_r.
destruct (FEEDBACK_INTERVAL <=? 0); cbn [fst snd feedback_shown];
  [|now split].
split; [reflexivity|]. apply lookup_insert_eq.
Qed.

Lemma gate_on_untracked_session_witness :
session_counters Scenario.ended !! "s1" = None
/\ feedback_shown Scenario.ended !! "s1" = None
/\ fst (should_show_feedback 0 "s1" Scenario.ended) = true
/\ should_show_feedback Scenario.budget "s1" Scenario.ended
   = (false, Scenario.ended).
Proof.
assert (Hc : session_counters Scenario.ended !! "s1" = None)
  by (vm_compute; reflexivity).
assert (Hf : feedback_shown Scenario.ended !! "s1" = None)
  by (vm_compute; reflexivity).
split; [exact Hc|]. split; [exact Hf|].
pose proof (gate_on_untracked_session 0 "s1" Scenario.ended Hc Hf) as [H0 _].
pose proof (gate_on_untracked_session Scenario.budget "s1" Scenario.ended
              Hc Hf) as [H1 H2].
split; [exact H0|].
change (Scenario.budget <=? 0) with false in H1, H2.
destruct (should_show_feedback Scenario.budget "s1" Scenario.ended).
cbn [fst snd] in *. congruence.
Defined.

(** X10: [reset_feedback_flag] arms the gate again: on a session whose
    flag is set and whose count has reached the budget the gate answers
    false, and after the reset it answers true once more. *)
Theorem reset_rearms_gate (FEEDBACK_INTERVAL : Z) (sid : string)
  (s : SessionManager.t) :
feedback_triggered sid s = true ->
FEEDBACK_INTERVAL <= count sid s ->
fst (should_show_feedback FEEDBACK_INTERVAL sid s) = false
/\ fst (should_show_feedback FEEDBACK_INTERVAL sid
          (reset_feedback_flag sid s)) = true.
Proof.
intros Hf Hc. rewrite !should_show_feedback_spec.
assert (Hr : feedback_triggered sid (reset_feedback_flag sid s) = false).
{ unfold reset_feedback_flag. unfold feedback_triggered in Hf.
  destruct (feedback_shown s !! sid) as [b|] eqn:E; [|discriminate Hf].
  rewrite feedback_triggered_insert. now rewrite bool_decide_eq_true_2. }
assert (Hk : session_counters (reset_feedback_flag sid s)
             = session_counters s).
{ unfold reset_feedback_flag. now destruct (feedback_shown s !! sid). }
rewrite Hk, Hr, Hf. fold (count sid s).
apply Z.leb_le in Hc. rewrite Hc. now split.
Qed.

Lemma reset_rearms_gate_witness :
feedback_triggered "s1" Scenario.flagged = true
/\ Scenario.budget <= count "s1" Scenario.flagged
/\ fst (should_show_feedback Scenario.budget "s1"
          (reset_feedback_flag "s1" Scenario.flagged)) = true.
Proof.
split; [vm_compute; reflexivity|]. split; [vm_compute; discriminate|].
apply (reset_rearms_gate Scenario.budget "s1" Scenario.flagged);
  [vm_compute; reflexivity | vm_compute; discriminate].
Defined.

End RegistryFacts.

(** ** The request handlers *)

Section HandlerFacts.

Import Database SessionManager Registry App.

Variable FEEDBACK_INTERVAL : Z.
Variable products : list Settings.product.
Variable overall : list Settings.expert.

Local Abbreviation FI := FEEDBACK_INTERVAL.

Implicit Types (s : SessionManager.t) (sid x : string) (c : cookie).

Lemma tracks_same_maps s s' :
session_counters s' = session_counters s ->
feedback_shown s' = feedback_shown s ->
flag_tracks_budget FI s -> flag_tracks_budget FI s'.
Proof.
intros Hc Hf H x. specialize (H x).
unfold feedback_triggered, count in *. now rewrite Hc, Hf.
Qed.

Lemma tracks_of_entries s s' :
1 <= FI ->
(forall x, entries x s' = (None, None, None)
           \/ entries x s' = entries x s) ->
flag_tracks_budget FI s -> flag_tracks_budget FI s'.
Proof.
intros Hfi He H x. destruct (He x) as [E|E].
- unfold entries in E. injection E as _ Hc Hf.
  unfold feedback_triggered, count. rewrite Hc, Hf. cbn.
  symmetry. apply Z.leb_gt. lia.
- apply entries_view in E. destruct E as (Hc & Hf & _).
  rewrite Hc, Hf. apply H.
Qed.

Lemma tracks_create uuid uid created n1 n2 e p l s :
1 <= FI -> flag_tracks_budget FI s ->
flag_tracks_budget FI (snd (create_session uuid uid created n1 n2 e p l s)).
Proof.
intros Hfi H. unfold create_session.
destruct uid as [uid|]; [|exact H].
destruct (negb (truthy_id uid)); [exact H|].
destruct created as [[|]|]; try exact H.
cbn [snd]. intros x. rewrite feedback_triggered_insert.
unfold count. cbn [session_counters]. rewrite lookup_insert.
case_bool_decide as E; case_decide; try congruence.
- cbn. symmetry. apply Z.leb_gt. lia.
- apply H.
Qed.

(** The gate restores the agreement of flag and count for its session
    when the flag, if set, is justified by the count. *)
Lemma tracks_gate sid s :
(forall x, x <> sid ->
   feedback_triggered x s = (FI <=? count x s)) ->
(feedback_triggered sid s = true -> FI <= count sid s) ->
flag_tracks_budget FI (snd (should_show_feedback FI sid s)).
Proof.
intros Ho Hs x. rewrite should_show_feedback_spec. fold (count sid s).
destruct (FI <=? count sid s) eqn:C, (feedback_triggered sid s) eqn:F;
  cbn [andb negb snd].
- destruct (decide (x = sid)) as [->|N]; [congruence|now apply Ho].
- rewrite feedback_triggered_insert. unfold count at 1.
  cbn [session_counters]. fold (count x s). case_bool_decide as E.
  + subst x. congruence.
  + apply Ho. congruence.
- apply Z.leb_gt in C. specialize (Hs eq_refl). lia.
- destruct (decide (x = sid)) as [->|N]; [congruence|now apply Ho].
Qed.

Lemma add_assistant_maps added now sid content s :
session_counters
  (snd (add_message_to_history added now sid "assistant" content s))
= session_counters s
/\ feedback_shown
     (snd (add_message_to_history added now sid "assistant" content s))
   = feedback_shown s.
Proof.
unfold add_message_to_history.
destruct added as [[|]|]; cbn [snd String.eqb Ascii.eqb Bool.eqb];
  try (split; reflexivity).
unfold update_session_activity.
destruct (active_sessions s !! sid); split; reflexivity.
Qed.

(** What [chat] does once the message, the session identifier and the
    activity check have let the request through. *)
Lemma chat_accepted message m response saved_user saved_assistant
  now_active now_user now_assistant c sid s :
given message = Some m ->
given (session_id c) = Some sid ->
fst (is_session_active now_active sid s) = true ->
let s2 := snd (add_message_to_history saved_user now_user sid "user" m s) in
let gate := should_show_feedback FI sid s2 in
let s4 := snd (add_message_to_history saved_assistant now_assistant sid
                                      "assistant" response (snd gate)) in
chat FI products overall message response saved_user saved_assistant
     now_active now_user now_assistant c s
= (Ok {| response := response;
         should_end_session := fst gate;
         question_count := count sid s4;
         feedback_modal :=
           if fst gate
           then Some (FeedbackQueries.create_feedback_modal_data
                        products overall sid s4)
           else None |},
   s4).
Proof.
intros Hm Hc Ha. cbn zeta. unfold chat. rewrite Hm, Hc.
pose proof (is_session_active_answer now_active sid s) as Hl.
rewrite Ha in Hl. destruct Hl as [_ Hs].
destruct (is_session_active now_active sid s) as [a s1].
cbn [fst snd] in *. subst a s1. cbn [negb].
destruct (add_message_to_history saved_user now_user sid "user" m s)
  as [b2 s2].
cbn [snd].
destruct (should_show_feedback FI sid s2) as [g s3]. cbn [fst snd].
now destruct (add_message_to_history saved_assistant now_assistant sid
                "assistant" response s3).
Qed.

Lemma tracks_chat message response saved_user saved_assistant
  now_active now_user now_assistant c s :
1 <= FI -> flag_tracks_budget FI s ->
flag_tracks_budget FI
  (snd (chat FI products overall message response saved_user
             saved_assistant now_active now_user now_assistant c s)).
Proof.
intros Hfi H.
destruct (given message) as [m|] eqn:Hm;
  [|unfold chat; now rewrite Hm].
destruct (given (session_id c)) as [sid|] eqn:Hc;
  [|unfold chat; now rewrite Hm, Hc].
destruct (fst (is_session_active now_active sid s)) eqn:Ha.
- rewrite (chat_accepted message m response saved_user saved_assistant
             now_active now_user now_assistant c sid s Hm Hc Ha).
  cbn [snd].
  destruct (add_assistant_maps saved_assistant now_assistant sid response
              (snd (should_show_feedback FI sid
                      (snd (add_message_to_history saved_user now_user sid
                              "user" m s))))) as [Hk Hf].
  eapply tracks_same_maps; [exact Hk | exact Hf |].
  apply tracks_gate.
  + intros x Hx.
    pose proof (add_message_entries_other saved_user now_user sid "user" m
                  x s Hx) as E.
    apply entries_view in E. destruct E as (Ec & Ef & _).
    rewrite Ec, Ef. apply H.
  + intros Hflag. unfold feedback_triggered in Hflag.
    rewrite add_message_flags in Hflag.
    fold (feedback_triggered sid s) in Hflag.
    rewrite (H sid) in Hflag. apply Z.leb_le in Hflag.
    rewrite add_message_count.
    destruct (_ && _); lia.
- unfold chat. rewrite Hm, Hc.
  pose proof (end_session_cases sid) as He.
  assert (Hs : snd (is_session_active now_active sid s) = s
               \/ snd (is_session_active now_active sid s)
                  = end_session sid s).
  { unfold is_session_active.
    destruct (active_sessions s !! sid) as [i|]; [|now left].
    destruct (timed_out now_active i); [now right|now left]. }
  destruct (is_session_active now_active sid s) as [a s1].
  cbn [fst snd] in *. subst a. cbn [negb snd].
  destruct Hs as [->| ->]; [exact H|].
  apply (tracks_of_entries s); [exact Hfi | | exact H].
  intros x. apply end_session_cases.
Qed.

Lemma save_feedback_maps insert sid rating (w : FeedbackManager.world) :
session_counters (fst (snd (FeedbackManager.save_feedback
                              insert sid rating w)))
= session_counters (fst w)
/\ feedback_shown (fst (snd (FeedbackManager.save_feedback
                               insert sid rating w)))
   = feedback_shown (fst w).
Proof.
unfold FeedbackManager.save_feedback.
destruct (negb (PyStr.mem _ _)); [now split|].
unfold Database.save_feedback.
destruct insert as [[|]|]; cbn [fst snd]; try (split; reflexivity).
destruct (String.eqb _ "unsatisfied"); [|now split].
unfold mark_expert_contacted.
destruct (active_sessions (fst w) !! sid); now split.
Qed.

Lemma process_feedback_response_world insert sid rating
  (w : FeedbackManager.world) :
snd (FeedbackManager.process_feedback_response products overall insert
       sid rating w)
= snd (FeedbackManager.save_feedback insert sid
         (if String.eqb rating "skipped" then "unsatisfied" else rating) w)
/\ FeedbackManager.success
     (fst (FeedbackManager.process_feedback_response products overall
             insert sid rating w))
   = fst (FeedbackManager.save_feedback insert sid
            (if String.eqb rating "skipped" then "unsatisfied" else rating)
            w).
Proof.
unfold FeedbackManager.process_feedback_response.
now destruct (FeedbackManager.save_feedback insert sid _ w).
Qed.

Lemma tracks_handle (r : request) (w : FeedbackManager.world) :
1 <= FI -> flag_tracks_budget FI (fst w) ->
flag_tracks_budget FI (fst (handle FI products overall r w)).
Proof.
intros Hfi H.
destruct r as [e p l uuid uid created n1 n2 c|m resp su sa n1 n2 n3 c
               |rating insert c|c]; cbn [handle fst].
- unfold register_user.
  destruct (given e) as [e'|]; [|exact H].
  destruct (given p) as [p'|]; [|exact H].
  pose proof (tracks_create uuid uid created n1 n2 e' p'
                (default "English" l) (fst w) Hfi H) as T.
  destruct (create_session uuid uid created n1 n2 e' p'
              (default "English" l) (fst w)) as [new s'].
  cbn [snd] in T. now destruct (given new).
- now apply tracks_chat.
- unfold submit_feedback.
  destruct (given (session_id c)) as [sid|]; [|exact H].
  destruct (given rating) as [rt|]; [|exact H].
  destruct (process_feedback_response_world insert sid rt w) as [Hw _].
  destruct (save_feedback_maps insert sid
              (if String.eqb rt "skipped" then "unsatisfied" else rt) w)
    as [Hk Hf].
  rewrite <- Hw in Hk, Hf.
  destruct (FeedbackManager.process_feedback_response products overall
              insert sid rt w) as [result w'].
  cbn [snd] in Hk, Hf.
  assert (T : flag_tracks_budget FI (fst w'))
    by (eapply tracks_same_maps; eassumption).
  destruct (FeedbackManager.success result); cbn [fst snd]; [|exact T].
  apply (tracks_of_entries (fst w')); [exact Hfi | | exact T].
  intros x. apply end_session_cases.
- unfold session_status.
  destruct (given (session_id c)) as [sid|]; [|exact H].
  destruct (get_session_info sid (fst w)); [|exact H].
  pose proof (tracks_gate sid (fst w)) as T.
  destruct (should_show_feedback FI sid (fst w)) as [g s'].
  cbn [snd] in *. apply T.
  + intros x _. apply H.
  + intros F. rewrite (H sid) in F. now apply Z.leb_le.
Qed.

Lemma tracks_serve (requests : list request) :
1 <= FI ->
forall w, flag_tracks_budget FI (fst w) ->
flag_tracks_budget FI (fst (serve FI products overall requests w)).
Proof.
intros Hfi. induction requests as [|r rs IH]; intros w H; cbn [serve].
- exact H.
- now apply IH, tracks_handle.
Qed.

Lemma tracks_started : flag_tracks_budget FI (fst started) <-> 1 <= FI.
Proof.
unfold flag_tracks_budget, started, feedback_triggered, count. cbn.
split.
- intros H. specialize (H ""). rewrite !lookup_empty in H. cbn in H.
  symmetry in H. apply Z.leb_gt in H. lia.
- intros Hfi x. rewrite !lookup_empty. cbn. symmetry. apply Z.leb_gt. lia.
Qed.

(** X11: with a budget of at least one question, in every state the
    server reaches by serving requests, the feedback flag of each
    identifier is set exactly when its question count has reached the
    budget. *)
Theorem served_flags_track_budget (requests : list request) :
1 <= FEEDBACK_INTERVAL ->
flag_tracks_budget FEEDBACK_INTERVAL
  (fst (serve FEEDBACK_INTERVAL products overall requests started)).
Proof.
intros Hfi. apply tracks_serve; [exact Hfi|]. now apply tracks_started.
Qed.

(** The gate is a no-op that answers false where the flags track the
    budget. *)
Lemma gate_idle sid s :
flag_tracks_budget FI s -> should_show_feedback FI sid s = (false, s).
Proof.
intros H. rewrite should_show_feedback_spec. fold (count sid s).
rewrite (H sid). now destruct (FI <=? count sid s).
Qed.

(** X12: with a budget of at least one question, in a state reached by
    serving requests, [session_status] leaves the state as it is and
    never reports [should_show_feedback]: the trigger is always consumed
    by the [chat] request that reaches the budget.  Without a session
    identifier in the client session it answers 401, for an identifier
    that has no live session it answers 404, and for a live session it
    reports the identifier, the question count, the language and the
    product of the session. *)
Theorem session_status_never_triggers (requests : list request) (c : cookie) :
1 <= FEEDBACK_INTERVAL ->
let s := fst (serve FEEDBACK_INTERVAL products overall requests started) in
snd (session_status FEEDBACK_INTERVAL c s) = s
/\ fst (session_status FEEDBACK_INTERVAL c s)
   = match session_id c with
     | Some (String _ _ as sid) =>
         match active_sessions s !! sid with
         | Some info =>
             Ok {| status_session_id := sid;
                   status_question_count :=
                     default 0 (session_counters s !! sid);
                   status_should_show_feedback := false;
                   status_language := language info;
                   status_product_involved := product_involved info |}
         | None => Error 404 "Session not found"
         end
     | _ => Error 401 "No active session"
     end.
Proof.
intros Hfi s.
assert (T : flag_tracks_budget FI s)
  by (apply tracks_serve; [exact Hfi | now apply tracks_started]).
unfold session_status, given.
destruct (session_id c) as [[|a sid]|]; cbn [PyStr.truthy];
  [now split | | now split].
unfold get_session_info.
destruct (active_sessions s !! String a sid) as [i|]; [|now split].
rewrite (gate_idle (String a sid) s T). now split.
Qed.

Lemma should_show_feedback_counters sid s :
session_counters (snd (should_show_feedback FI sid s)) = session_counters s.
Proof.
rewrite should_show_feedback_spec. now destruct (_ && _).
Qed.

(** X13: with a budget of at least one question, in a state reached by
    serving requests, a [chat] request that is let through reports the
    question count after the message, which is one more than before when
    the durable layer stored the message and unchanged otherwise, and it
    reports the end of the session exactly when the message was stored
    and brought the count to the budget.  A rejected request carries the
    status 400 or 401 and alters no session that is live afterwards. *)
Theorem chat_ends_session_on_budget_message
  (requests : list request) (message : option string) (response : string)
  (saved_user saved_assistant : outcome bool)
  (now_active now_user now_assistant : Z) (c : cookie) :
1 <= FEEDBACK_INTERVAL ->
let s := fst (serve FEEDBACK_INTERVAL products overall requests started) in
let r := chat FEEDBACK_INTERVAL products overall message response
              saved_user saved_assistant now_active now_user now_assistant
              c s in
let stored := match saved_user with Returned true => true | _ => false end in
match fst r with
| Ok body =>
    exists sid,
      given (session_id c) = Some sid
      /\ question_count body = count sid (snd r)
      /\ question_count body = count sid s + (if stored then 1 else 0)
      /\ should_end_session body
         = stored && (question_count body =? FEEDBACK_INTERVAL)
| Error status _ =>
    (status = 400 \/ status = 401)
    /\ forall x, live x (snd r) = true -> entries x (snd r) = entries x s
end.
Proof.
intros Hfi s r stored.
assert (T : flag_tracks_budget FI s)
  by (apply tracks_serve; [exact Hfi | now apply tracks_started]).
subst r.
destruct (given message) as [m|] eqn:Hm;
  [|unfold chat; rewrite Hm; cbn; auto].
destruct (given (session_id c)) as [sid|] eqn:Hc;
  [|unfold chat; rewrite Hm, Hc; cbn; auto].
destruct (fst (is_session_active now_active sid s)) eqn:Ha.
- rewrite (chat_accepted message m response saved_user saved_assistant
             now_active now_user now_assistant c sid s Hm Hc Ha).
  cbn [fst snd question_count should_end_session].
  exists sid. split; [reflexivity|]. split; [reflexivity|].
  set (s2 := snd (add_message_to_history saved_user now_user sid "user"
                    m s)).
  assert (C4 : count sid
                 (snd (add_message_to_history saved_assistant now_assistant
                         sid "assistant" response
                         (snd (should_show_feedback FI sid s2))))
               = count sid s2).
  { unfold count.
    destruct (add_assistant_maps saved_assistant now_assistant sid response
                (snd (should_show_feedback FI sid s2))) as [-> _].
    now rewrite should_show_feedback_counters. }
  assert (C2 : count sid s2 = count sid s + (if stored then 1 else 0)).
  { unfold s2. rewrite add_message_count. subst stored.
    now destruct saved_user as [[|]|]. }
  rewrite C4, C2. split; [reflexivity|].
  rewrite should_show_feedback_spec. fold (count sid s2).
  assert (F2 : feedback_triggered sid s2 = (FI <=? count sid s)).
  { unfold feedback_triggered, s2. rewrite add_message_flags. apply (T sid). }
  rewrite F2, C2.
  destruct stored; destruct (FI <=? count sid s) eqn:L;
    destruct (FI <=? count sid s + _) eqn:L';
    destruct (count sid s + _ =? FI) eqn:Q; cbn; try reflexivity;
    rewrite ?Z.leb_le, ?Z.leb_gt, ?Z.eqb_eq, ?Z.eqb_neq in *; lia.
- unfold chat. rewrite Hm, Hc.
  pose proof (fun x => is_session_active_entries_other now_active sid x s)
    as Ho.
  pose proof (is_session_active_answer now_active sid s) as Hl.
  rewrite Ha in Hl.
  destruct (is_session_active now_active sid s) as [a s1].
  cbn [fst snd] in *. subst a. cbn [negb fst snd].
  split; [auto|]. intros x Hx.
  destruct (decide (x = sid)) as [->|N]; [congruence|].
  now apply Ho.
Qed.

(** The rating as [save_feedback] stores it. *)
Lemma save_feedback_cases insert sid rt (w : FeedbackManager.world) :
let nr := if String.eqb rt "skipped" then "unsatisfied" else rt in
if PyStr.mem rt ["satisfied"; "unsatisfied"; "skipped"]
   && match insert with Returned true => true | _ => false end
then fst (FeedbackManager.save_feedback insert sid nr w) = true
     /\ Database.feedback
          (snd (snd (FeedbackManager.save_feedback insert sid nr w)))
        = Database.feedback (snd w)
          ++ [(sid,
               if String.eqb rt "satisfied" then "satisfied"
               else "unsatisfied",
               false)]
else FeedbackManager.save_feedback insert sid nr w = (false, w).
Proof.
cbn zeta. destruct w as [sm db].
destruct (String.eqb rt "skipped") eqn:Hs.
- apply String.eqb_eq in Hs. subst rt.
  unfold FeedbackManager.save_feedback, Database.save_feedback.
  destruct insert as [[|]|]; cbn; destruct db; auto.
- assert (Hm : PyStr.mem rt ["satisfied"; "unsatisfied"; "skipped"]
               = PyStr.mem rt ["satisfied"; "unsatisfied"]).
  { unfold PyStr.mem. cbn [existsb]. rewrite Hs. now rewrite !orb_false_r. }
  rewrite Hm. unfold FeedbackManager.save_feedback. rewrite Hs.
  destruct (PyStr.mem rt ["satisfied"; "unsatisfied"]) eqn:M;
    cbn [negb andb]; [|reflexivity].
  unfold Database.save_feedback.
  destruct insert as [[|]|]; cbn [fst snd]; destruct db; try reflexivity.
  split; [reflexivity|]. cbn [Database.feedback].
  unfold PyStr.mem in M. cbn [existsb] in M. rewrite orb_false_r in M.
  destruct (String.eqb rt "satisfied") eqn:E1.
  + apply String.eqb_eq in E1. now subst rt.
  + cbn [orb] in M. apply String.eqb_eq in M. now subst rt.
Qed.

(** An accepted submission clears the client session and ends the
    session. *)
Lemma feedback_submission_shape rating insert c
  (w : FeedbackManager.world) :
(exists sid,
   given (session_id c) = Some sid
   /\ snd (fst (submit_feedback products overall rating insert c w))
      = cleared
   /\ live sid (fst (snd (submit_feedback products overall rating insert
                            c w))) = false)
\/ is_ok (fst (fst (submit_feedback products overall rating insert c w)))
   = false.
Proof.
unfold submit_feedback.
destruct (given (session_id c)) as [sid|]; [|now right].
destruct (given rating) as [rt|]; [|now right].
destruct (FeedbackManager.process_feedback_response products overall
            insert sid rt w) as [result w'].
destruct (FeedbackManager.success result); [|now right].
left. exists sid. cbn [fst snd]. repeat split.
apply live_false, end_session_not_live.
Qed.

(** X14: [submit_feedback] accepts a request exactly when the client
    session carries an identifier, the rating is "satisfied",
    "unsatisfied" or "skipped" and the durable layer stores the row.  It
    then appends that row (with "skipped" stored as "unsatisfied"), ends
    the session and clears the client session; whether the session was
    live is not consulted.  A rejected request (status 401, 400 or 500)
    changes neither the client session nor the state. *)
Theorem feedback_submission_ends_session
  (rating : option string) (insert : outcome bool) (c : cookie)
  (w : FeedbackManager.world) :
let r := submit_feedback products overall rating insert c w in
match given (session_id c), given rating with
| Some sid, Some rt =>
    if PyStr.mem rt ["satisfied"; "unsatisfied"; "skipped"]
       && match insert with Returned true => true | _ => false end
    then is_ok (fst (fst r)) = true
         /\ snd (fst r) = cleared
         /\ live sid (fst (snd r)) = false
         /\ Database.feedback (snd (snd r))
            = Database.feedback (snd w)
              ++ [(sid,
                   if String.eqb rt "satisfied" then "satisfied"
                   else "unsatisfied",
                   false)]
    else r = (Error 500 "Failed to submit feedback", c, w)
| Some _, None => r = (Error 400 "Rating is required", c, w)
| None, _ => r = (Error 401 "No active session", c, w)
end.
Proof.
intros r. subst r. unfold submit_feedback.
destruct (given (session_id c)) as [sid|]; [|reflexivity].
destruct (given rating) as [rt|]; [|reflexivity].
destruct (process_feedback_response_world insert sid rt w) as [Hw Hs].
pose proof (save_feedback_cases insert sid rt w) as Hc. cbn zeta in Hc.
destruct (FeedbackManager.process_feedback_response products overall
            insert sid rt w) as [result w'].
cbn [fst snd] in Hw, Hs.
destruct (PyStr.mem rt ["satisfied"; "unsatisfied"; "skipped"]
          && match insert with Returned true => true | _ => false end).
- destruct Hc as [Hok Hrow]. rewrite Hs, Hok. cbn [fst snd is_ok].
  repeat split.
  + apply live_false, end_session_not_live.
  + now rewrite Hw.
- rewrite Hc in Hw, Hs. cbn [fst snd] in Hw, Hs. now rewrite Hs, Hw.
Qed.

(** X15: once [submit_feedback] has accepted a request, every later
    [chat] request is rejected with the status 401, the state being left
    as it is: with the cleared client session for want of a session
    identifier, with the former client session because the session has
    ended. *)
Theorem chat_after_feedback_is_rejected
  (rating : option string) (insert : outcome bool) (c : cookie)
  (w : FeedbackManager.world) (message response : string)
  (saved_user saved_assistant : outcome bool)
  (now_active now_user now_assistant : Z) :
let r := submit_feedback products overall rating insert c w in
is_ok (fst (fst r)) = true ->
PyStr.truthy message = true ->
chat FEEDBACK_INTERVAL products overall (Some message) response
     saved_user saved_assistant now_active now_user now_assistant
     (snd (fst r)) (fst (snd r))
= (Error 401 "No active session", fst (snd r))
/\ chat FEEDBACK_INTERVAL products overall (Some message) response
        saved_user saved_assistant now_active now_user now_assistant
        c (fst (snd r))
   = (Error 401 "Session expired", fst (snd r)).
Proof.
intros r Hok Hm.
pose proof (feedback_submission_shape rating insert c w) as H.
fold r in H. destruct H as [(sid & Hsid & Hcookie & Hlive)|Herr];
  [|congruence].
unfold chat. cbn [given]. rewrite Hm, Hcookie, Hsid.
cbn [session_id cleared given]. split; [reflexivity|].
unfold is_session_active. apply live_false in Hlive. now rewrite Hlive.
Qed.

(** X16: [register_user] rejects a request without an email or a phone
    number with the status 400, and one for which the durable layer fails
    with the status 500, changing neither the client session nor the
    state.  Otherwise it returns the generated identifier, records it
    with the contact data in the client session, and the session is live
    with no question asked, the flag unset and the requested language,
    English when none is given. *)
Theorem register_user_creates_or_rejects
  (email phone language : option string) (uuid : string)
  (user_id : outcome (option Z)) (created : outcome bool)
  (now_created now_activity : Z) (c : cookie) (s : SessionManager.t) :
PyStr.truthy uuid = true ->
let r := register_user email phone language uuid user_id created
                       now_created now_activity c s in
match given email, given phone with
| Some e, Some p =>
    if durable_failure user_id created
    then r = (Error 500 "Failed to create session", c, s)
    else fst (fst r) = Ok uuid
         /\ snd (fst r)
            = {| user_registered := true; session_id := Some uuid;
                 user_data := Some (e, p, default "English" language) |}
         /\ get_session_info uuid (snd r)
            = Some {| SessionManager.email := e;
                      SessionManager.phone := p;
                      SessionManager.language :=
                        default "English" language;
                      created_at := now_created;
                      last_activity := now_activity;
                      SessionManager.question_count := 0;
                      product_involved := None;
                      expert_contacted := false |}
         /\ feedback_triggered uuid (snd r) = false
| _, _ => r = (Error 400 "Email and phone are required", c, s)
end.
Proof.
intros Hu r. subst r. unfold register_user.
destruct (given email) as [e|]; [|reflexivity].
destruct (given phone) as [p|]; [|reflexivity].
unfold durable_failure, create_session.
destruct user_id as [uid|]; [|reflexivity].
destruct (negb (truthy_id uid)); [reflexivity|].
destruct created as [[|]|]; try reflexivity.
cbn [orb given]. rewrite Hu. cbn [fst snd].
unfold get_session_info, feedback_triggered.
cbn [active_sessions session_counters feedback_shown].
rewrite !lookup_insert_eq. cbn. repeat split.
Qed.

End HandlerFacts.

Lemma served_flags_track_budget_witness :
1 <= 3
/\ App.flag_tracks_budget 3
     (fst (App.serve 3 Settings.IOT_PRODUCTS Settings.OVERALL_EXPERTS
             Scenario.visit App.started)).
Proof.
split; [lia|].
apply (served_flags_track_budget 3 Settings.IOT_PRODUCTS
         Settings.OVERALL_EXPERTS Scenario.visit).
lia.
Defined.

Lemma session_status_never_triggers_witness :
1 <= 3
/\ snd (App.session_status 3 Scenario.client
          (fst (App.serve 3 Settings.IOT_PRODUCTS Settings.OVERALL_EXPERTS
                  Scenario.visit App.started)))
   = fst (App.serve 3 Settings.IOT_PRODUCTS Settings.OVERALL_EXPERTS
            Scenario.visit App.started).
Proof.
split; [lia|].
refine (proj1 (session_status_never_triggers 3 Settings.IOT_PRODUCTS
                 Settings.OVERALL_EXPERTS Scenario.visit Scenario.client _)).
lia.
Defined.

Lemma chat_ends_session_on_budget_message_witness :
1 <= 3
/\ match
     fst (App.chat 3 Settings.IOT_PRODUCTS Settings.OVERALL_EXPERTS
            (Some "and the third?") "answer" (Database.Returned true)
            (Database.Returned true) 40 41 42 Scenario.client
            (fst (App.serve 3 Settings.IOT_PRODUCTS Settings.OVERALL_EXPERTS
                    Scenario.visit App.started)))
   with
   | App.Ok body =>
       App.question_count body = 3 /\ App.should_end_session body = true
   | App.Error _ _ => False
   end.
Proof.
split; [lia|].
pose proof (chat_ends_session_on_budget_message 3 Settings.IOT_PRODUCTS
              Settings.OVERALL_EXPERTS Scenario.visit
              (Some "and the third?") "answer" (Database.Returned true)
              (Database.Returned true) 40 41 42 Scenario.client
              ltac:(lia)) as H.
cbn zeta in H.
destruct (fst (App.chat 3 Settings.IOT_PRODUCTS Settings.OVERALL_EXPERTS
                 (Some "and the third?") "answer" (Database.Returned true)
                 (Database.Returned true) 40 41 42 Scenario.client
                 (fst (App.serve 3 Settings.IOT_PRODUCTS
                         Settings.OVERALL_EXPERTS Scenario.visit
                         App.started)))) as [body|st msg] eqn:E.
- destruct H as (sid & Hsid & _ & Hq & He).
  injection Hsid as <-. rewrite He, Hq. vm_compute. split; reflexivity.
- vm_compute in E. discriminate E.
Defined.

Lemma chat_after_feedback_is_rejected_witness :
App.is_ok
  (fst (fst (App.submit_feedback Settings.IOT_PRODUCTS
               Settings.OVERALL_EXPERTS (Some "skipped")
               (Database.Returned true) Scenario.client
               (Scenario.flagged, {| Database.feedback := [] |}))))
= true
/\ PyStr.truthy "one more" = true
/\ fst (App.chat 3 Settings.IOT_PRODUCTS Settings.OVERALL_EXPERTS
          (Some "one more") "answer" (Database.Returned true)
          (Database.Returned true) 50 51 52 Scenario.client
          (fst (snd (App.submit_feedback Settings.IOT_PRODUCTS
                       Settings.OVERALL_EXPERTS (Some "skipped")
                       (Database.Returned true) Scenario.client
                       (Scenario.flagged, {| Database.feedback := [] |})))))
   = App.Error 401 "Session expired".
Proof.
split; [vm_compute; reflexivity|]. split; [reflexivity|].
rewrite (proj2 (chat_after_feedback_is_rejected 3 Settings.IOT_PRODUCTS
                  Settings.OVERALL_EXPERTS (Some "skipped")
                  (Database.Returned true) Scenario.client
                  (Scenario.flagged, {| Database.feedback := [] |})
                  "one more" "answer" (Database.Returned true)
                  (Database.Returned true) 50 51 52
                  ltac:(vm_compute; reflexivity) eq_refl)).
reflexivity.
Defined.

Lemma register_user_creates_or_rejects_witness :
PyStr.truthy "s9" = true
/\ fst (fst (App.register_user (Some "eve@example.org") (Some "0789") None
               "s9" (Database.Returned (Some 3)) (Database.Returned true)
               7 7 App.cleared SessionManager.init))
   = App.Ok "s9".
Proof.
split; [reflexivity|].
exact (proj1 (register_user_creates_or_rejects
                (Some "eve@example.org") (Some "0789") None "s9"
                (Database.Returned (Some 3)) (Database.Returned true)
                7 7 App.cleared SessionManager.init eq_refl)).
Defined.

(** ** The feedback recorder, continued *)

Section FeedbackQueriesFacts.

Import Database SessionManager FeedbackManager FeedbackQueries.

Variable products : list Settings.product.
Variable overall : list Settings.expert.

(** X17: [save_feedback] succeeds exactly when the rating is valid and
    the durable layer stores the row.  It then sets [expert_contacted] to
    true in the record of the session, every other field being kept,
    when the session is live and the rating is not "satisfied"; it
    changes nothing else: no counter, no flag, no other session, and
    nothing at all when it fails. *)
Theorem save_feedback_marks_expert_contacted
  (insert : outcome bool) (sid rating : string)
  (w : FeedbackManager.world) :
let r := save_feedback insert sid rating w in
fst r
= PyStr.mem rating ["satisfied"; "unsatisfied"; "skipped"]
  && match insert with Returned true => true | _ => false end
/\ active_sessions (fst (snd r)) !! sid
   = (if fst r && negb (String.eqb rating "satisfied")
      then option_map
             (fun info =>
                {| email := email info; phone := phone info;
                   language := language info;
                   created_at := created_at info;
                   last_activity := last_activity info;
                   question_count := question_count info;
                   product_involved := product_involved info;
                   expert_contacted := true |})
             (active_sessions (fst w) !! sid)
      else active_sessions (fst w) !! sid)
/\ session_counters (fst (snd r)) = session_counters (fst w)
/\ feedback_shown (fst (snd r)) = feedback_shown (fst w)
/\ (forall other, other <> sid ->
      active_sessions (fst (snd r)) !! other
      = active_sessions (fst w) !! other)
/\ (if fst r then True else snd r = w).
Proof.
intros r. subst r. destruct w as [sm db].
assert (Hmark : forall x,
          active_sessions (mark_expert_contacted sid sm) !! x
          = if bool_decide (x = sid)
            then option_map (set_expert_contacted true)
                            (active_sessions sm !! sid)
            else active_sessions sm !! x).
{ intros x. unfold mark_expert_contacted.
  destruct (active_sessions sm !! sid) as [i|] eqn:E.
  - cbn [active_sessions]. rewrite lookup_insert.
    case_decide; case_bool_decide; try congruence; now subst.
  - case_bool_decide; [subst; now rewrite E|reflexivity]. }
assert (Hmaps : session_counters (mark_expert_contacted sid sm)
                = session_counters sm
                /\ feedback_shown (mark_expert_contacted sid sm)
                   = feedback_shown sm).
{ unfold mark_expert_contacted.
  now destruct (active_sessions sm !! sid). }
destruct Hmaps as [Hk Hf].
unfold save_feedback. cbn [fst snd].
destruct (String.eqb rating "skipped") eqn:Hs.
- apply String.eqb_eq in Hs. subst rating.
  unfold Database.save_feedback.
  destruct insert as [[|]|]; cbn [fst snd negb andb PyStr.mem existsb
    String.eqb Ascii.eqb Bool.eqb orb]; repeat split; trivial.
  + rewrite Hmark. now rewrite bool_decide_eq_true_2.
  + intros other Ho. rewrite Hmark. now rewrite bool_decide_eq_false_2.
- assert (Hm : PyStr.mem rating ["satisfied"; "unsatisfied"; "skipped"]
               = PyStr.mem rating ["satisfied"; "unsatisfied"]).
  { unfold PyStr.mem. cbn [existsb]. rewrite Hs. now rewrite !orb_false_r. }
  rewrite Hm.
  destruct (PyStr.mem rating ["satisfied"; "unsatisfied"]) eqn:M;
    cbn [negb andb fst snd]; [|repeat split; trivial].
  unfold Database.save_feedback.
  destruct insert as [[|]|]; cbn [fst snd andb]; repeat split; trivial.
  + unfold PyStr.mem in M. cbn [existsb] in M. rewrite orb_false_r in M.
    destruct (String.eqb rating "satisfied") eqn:E1; cbn [negb].
    * apply String.eqb_eq in E1. subst rating. reflexivity.
    * cbn [orb] in M. rewrite M. rewrite Hmark.
      now rewrite bool_decide_eq_true_2.
  + destruct (String.eqb rating "unsatisfied"); [exact Hk|reflexivity].
  + destruct (String.eqb rating "unsatisfied"); [exact Hf|reflexivity].
  + intros other Ho.
    destruct (String.eqb rating "unsatisfied"); [|reflexivity].
    rewrite Hmark. now rewrite bool_decide_eq_false_2.
Qed.

End FeedbackQueriesFacts.


(** ** The experts *)

Section ExpertFacts.

Import Database SessionManager FeedbackManager FeedbackQueries.

Variable products : list Settings.product.
Variable overall : list Settings.expert.

Lemma listed_experts :
map listed (get_all_experts products overall)
= map Settings.expert_of products ++ overall.
Proof.
unfold get_all_experts. rewrite map_app, !map_map. cbn [listed].
now rewrite map_id.
Qed.

Lemma find_product_expert_listed (l : list Settings.product) n e :
find_product_expert l n = Some e -> In e (map Settings.expert_of l).
Proof.
induction l as [|p l IH]; cbn [find_product_expert map]; [discriminate|].
destruct (String.eqb (Settings.name p) n).
- intros H. injection H as <-. now left.
- intros H. right. now apply IH.
Qed.

Lemma find_overall_by_specialty_listed (l : list Settings.expert) sp e :
find_overall_by_specialty l sp = Some e -> In e l.
Proof.
induction l as [|x l IH]; cbn [find_overall_by_specialty]; [discriminate|].
destruct (PyStr.mem _ _).
- intros H. injection H as <-. now left.
- intros H. right. now apply IH.
Qed.

Lemma find_product_by_specialty_listed (l : list Settings.product) sp e :
find_product_by_specialty l sp = Some e ->
In e (map Settings.expert_of l).
Proof.
induction l as [|p l IH]; cbn [find_product_by_specialty map];
  [discriminate|].
destruct (PyStr.contains _ _).
- intros H. injection H as <-. now left.
- intros H. right. now apply IH.
Qed.

(** X18: [get_all_experts] lists one entry for each product, then one for
    each overall expert, and every expert that [get_expert_contact] or
    [get_expert_by_specialty] can return is among them. *)
Theorem every_returned_expert_is_listed
  (product_name : option string) (specialty : string) :
length (get_all_experts products overall)
= (length products + length overall)%nat
/\ map listed_type (get_all_experts products overall)
   = repeat "product_specific" (length products)
     ++ repeat "overall" (length overall)
/\ (forall e,
      get_expert_contact products overall product_name = Some e ->
      In e (map listed (get_all_experts products overall)))
/\ (forall e,
      get_expert_by_specialty products overall specialty = Some e ->
      In e (map listed (get_all_experts products overall))).
Proof.
split; [|split; [|split]].
- unfold get_all_experts. now rewrite length_app, !length_map.
- unfold get_all_experts. rewrite map_app, !map_map. cbn [listed_type].
  f_equal; [induction products | induction overall]; cbn; congruence.
- intros e. rewrite listed_experts. unfold get_expert_contact.
  destruct (match product_name with
            | Some n =>
                if PyStr.truthy n then find_product_expert products n
                else None
            | None => None
            end) as [x|] eqn:F.
  + intros H. injection H as <-. apply in_or_app. left.
    destruct product_name as [n|]; [|discriminate F].
    destruct (PyStr.truthy n); [|discriminate F].
    now apply find_product_expert_listed with n.
  + destruct overall as [|x l]; [discriminate|].
    intros H. injection H as <-. apply in_or_app. right. now left.
- intros e. rewrite listed_experts. unfold get_expert_by_specialty.
  destruct (find_overall_by_specialty overall specialty) as [x|] eqn:F1.
  + intros H. injection H as <-. apply in_or_app. right.
    now apply find_overall_by_specialty_listed with specialty.
  + destruct (find_product_by_specialty products specialty) as [x|] eqn:F2.
    * intros H. injection H as <-. apply in_or_app. left.
      now apply find_product_by_specialty_listed with specialty.
    * destruct overall as [|x l]; [discriminate|].
      intros H. injection H as <-. apply in_or_app. right. now left.
Qed.

(** X19: [get_expert_by_specialty] does not see the case of the
    specialty; it returns an expert whenever an overall expert is
    configured; and for the empty specialty, which no overall expert
    lists, it returns the expert of the first product, the empty string
    being part of every product name. *)
Theorem expert_by_specialty_edge_cases (specialty : string) :
get_expert_by_specialty products overall (PyStr.lower specialty)
= get_expert_by_specialty products overall specialty
/\ (overall <> [] ->
    get_expert_by_specialty products overall specialty <> None)
/\ (find_overall_by_specialty overall "" = None ->
    get_expert_by_specialty products overall ""
    = match products with
      | product :: _ => Some (Settings.expert_of product)
      | [] => hd_error overall
      end).
Proof.
split; [|split].
- unfold get_expert_by_specialty.
  assert (H1 : forall l, find_overall_by_specialty l (PyStr.lower specialty)
                         = find_overall_by_specialty l specialty).
  { induction l as [|x l IH]; cbn [find_overall_by_specialty];
      [reflexivity|]. now rewrite lower_idempotent, IH. }
  assert (H2 : forall l, find_product_by_specialty l (PyStr.lower specialty)
                         = find_product_by_specialty l specialty).
  { induction l as [|x l IH]; cbn [find_product_by_specialty];
      [reflexivity|]. now rewrite lower_idempotent, IH. }
  now rewrite H1, H2.
- intros Hne. unfold get_expert_by_specialty.
  destruct (find_overall_by_specialty overall specialty); [discriminate|].
  destruct (find_product_by_specialty products specialty); [discriminate|].
  destruct overall; [contradiction|discriminate].
- intros H. unfold get_expert_by_specialty. rewrite H.
  destruct products as [|p l]; cbn [find_product_by_specialty].
  + now destruct overall.
  + cbn [PyStr.lower].
    assert (C : PyStr.contains "" (PyStr.lower (Settings.name p)) = true)
      by now destruct (PyStr.lower (Settings.name p)).
    now rewrite C.
Qed.

(** X20: the dialog built by [create_feedback_modal_data] carries an
    expert only for a session with a product in focus, and then the one
    that [process_feedback_response] formats; without a product in focus
    the dialog carries none, while the response still falls back to the
    first overall expert. *)
Theorem modal_expert_needs_product (insert : outcome bool)
  (sid rating : string) (s : SessionManager.t) (db : Database.t) :
let m := create_feedback_modal_data products overall sid s in
let r := fst (process_feedback_response products overall insert sid rating
                                        (s, db)) in
modal_product_name m = FeedbackManager.product_name r
/\ modal_show_expert_contact m
   = match expert_info m with Some _ => true | None => false end
/\ FeedbackManager.expert_contact r
   = option_map format_expert_contact
       (match App.given (modal_product_name m) with
        | Some _ => expert_info m
        | None => hd_error overall
        end)
/\ (App.given (modal_product_name m) = None -> expert_info m = None).
Proof.
intros m r. subst m r.
unfold create_feedback_modal_data, process_feedback_response.
cbn [fst]. destruct (save_feedback insert sid _ (s, db)) as [saved w'].
cbn [fst modal_product_name modal_show_expert_contact expert_info
     FeedbackManager.product_name FeedbackManager.expert_contact].
repeat split.
- unfold App.given. destruct (get_session_product sid s) as [n|].
  + destruct (PyStr.truthy n) eqn:T; [reflexivity|].
    unfold get_expert_contact. rewrite T. now destruct overall.
  + unfold get_expert_contact. now destruct overall.
- unfold App.given. destruct (get_session_product sid s) as [n|];
    [|reflexivity].
  now destruct (PyStr.truthy n).
Qed.

End ExpertFacts.

(** X21: [validate_feedback_rating] accepts a rating exactly when its
    lowered form is "satisfied" or "unsatisfied", whatever the case of
    its letters, so that a rating and its lower-cased form get the same
    answer.  Of the ratings that [save_feedback] stores it accepts all
    but "skipped", which [save_feedback] stores as "unsatisfied". *)
Theorem validate_feedback_rating_covers_saved
  (insert : Database.outcome bool) (sid rating : string)
  (w : FeedbackManager.world) :
(forall lower,
   Words.lowered rating lower ->
   (FeedbackQueries.validate_feedback_rating rating = true
    <-> lower = "satisfied" \/ lower = "unsatisfied"))
/\ FeedbackQueries.validate_feedback_rating (PyStr.lower rating)
   = FeedbackQueries.validate_feedback_rating rating
/\ (fst (FeedbackManager.save_feedback insert sid rating w) = true ->
    FeedbackQueries.validate_feedback_rating rating
    = negb (String.eqb rating "skipped")).
Proof.
split; [|split].
- intros lower Hl. apply lowered_unique in Hl. subst lower.
  unfold FeedbackQueries.validate_feedback_rating, PyStr.mem.
  cbn [existsb]. rewrite orb_false_r, orb_true_iff, !String.eqb_eq.
  reflexivity.
- unfold FeedbackQueries.validate_feedback_rating.
  now rewrite lower_idempotent.
- intros H. unfold FeedbackManager.save_feedback in H.
  destruct (String.eqb rating "skipped") eqn:Hs.
  + apply String.eqb_eq in Hs. now subst rating.
  + destruct (PyStr.mem rating ["satisfied"; "unsatisfied"]) eqn:M;
      [|discriminate H].
    unfold PyStr.mem in M. cbn [existsb] in M. rewrite orb_false_r in M.
    apply orb_true_iff in M.
    destruct M as [M|M]; apply String.eqb_eq in M; now subst rating.
Qed.

Lemma validate_feedback_rating_covers_saved_witness :
Words.lowered "UnSatisfied" "unsatisfied"
/\ FeedbackQueries.validate_feedback_rating "UnSatisfied" = true
/\ fst (FeedbackManager.save_feedback (Database.Returned true) "s1"
          "unsatisfied"
          (Scenario.flagged, {| Database.feedback := [] |})) = true
/\ FeedbackQueries.validate_feedback_rating "unsatisfied" = true.
Proof.
assert (L : Words.lowered "UnSatisfied" "unsatisfied")
  by exact (lower_lowered "UnSatisfied").
split; [exact L|]. split.
- apply (proj1 (validate_feedback_rating_covers_saved
                  (Database.Returned true) "s1" "UnSatisfied"
                  (Scenario.flagged, {| Database.feedback := [] |}))
               "unsatisfied" L).
  now right.
- split; [vm_compute; reflexivity|].
  exact (proj2 (proj2 (validate_feedback_rating_covers_saved
                         (Database.Returned true) "s1" "unsatisfied"
                         (Scenario.flagged, {| Database.feedback := [] |})))
               ltac:(vm_compute; reflexivity)).
Defined.

(** ** The router, continued *)

Section RouterFacts.

Import ProductRouter.

Variable ratio : string -> string -> float.
Variable products : list Settings.product.
Variable overall : list Settings.expert.

Lemma calculate_similarity_lower (query : string) (keywords : list string) :
calculate_similarity ratio (PyStr.lower query) keywords
= calculate_similarity ratio query keywords.
Proof. unfold calculate_similarity. now rewrite lower_idempotent. Qed.

Lemma select_best_lower (query : string)
  (table : list (string * list string)) :
forall start,
select_best ratio (PyStr.lower query) table start
= select_best ratio query table start.
Proof.
induction table as [|entry table IH]; intros start; [reflexivity|].
cbn [select_best fold_left]. rewrite calculate_similarity_lower. apply IH.
Qed.

(** X22: the analysis of a query does not see its case: a query and its
    lower-cased form get the same intent, product, confidence and
    expert. *)
Theorem analysis_ignores_case (query : string) :
analyze_query_intent ratio products overall (PyStr.lower query)
= analyze_query_intent ratio products overall query.
Proof.
unfold analyze_query_intent, is_exit_command, is_language_selection,
  route_query_to_product, is_product_listing_request.
now rewrite lower_idempotent, select_best_lower.
Qed.


(** X24: an analysis carries at most one of the intents exit, language
    selection and product listing; it names a language exactly when it
    is a language selection; it names a product only when it carries none
    of the three intents, and an expert only when it names a product. *)
Theorem analysis_has_one_intent (query : string) :
let a := analyze_query_intent ratio products overall query in
((if Analysis.is_exit a then 1 else 0)
 + (if Analysis.is_language_selection a then 1 else 0)
 + (if Analysis.is_product_listing a then 1 else 0) <= 1)%nat
/\ Analysis.is_language_selection a
   = match Analysis.selected_language a with
     | Some _ => true
     | None => false
     end
/\ match Analysis.routed_product a with
   | Some _ =>
       Analysis.is_exit a = false
       /\ Analysis.is_language_selection a = false
       /\ Analysis.is_product_listing a = false
   | None => Analysis.expert_contact a = None
   end.
Proof.
cbn zeta. unfold analyze_query_intent.
destruct (is_exit_command query); [cbn; auto|].
destruct (is_language_selection query) as [l|].
- destruct (PyStr.truthy l); [cbn; auto|].
  destruct (is_product_listing_request query); [cbn; auto|].
  destruct (route_query_to_product ratio query) as [[p|] conf]; cbn; auto.
- destruct (is_product_listing_request query); [cbn; auto|].
  destruct (route_query_to_product ratio query) as [[p|] conf]; cbn; auto.
Qed.

(** The selection loop names a product of its table or keeps the name it
    started with. *)
Lemma select_best_names (query : string)
  (table : list (string * list string)) :
forall start p,
fst (select_best ratio query table start) = Some p ->
fst start = Some p \/ In p (map fst table).
Proof.
induction table as [|entry table IH]; intros start p; cbn [select_best
  fold_left map]; [auto|].
intros H. apply IH in H. unfold keep_better in H.
destruct (snd start <? _)%float; cbn [fst] in H.
- destruct H as [H|H]; [injection H as <-|]; right; [now left|now right].
- destruct H as [H|H]; [now left|right; now right].
Qed.

(** X25: with the tables of the configuration, a query that is routed
    to a product is routed to one of the four declared products, with a
    confidence that is not below 0.1, and the analysis carries the
    dedicated expert of that product, never the overall fallback. *)
Theorem routed_query_gets_dedicated_expert (query : string) :
let a := analyze_query_intent ratio Settings.IOT_PRODUCTS
                              Settings.OVERALL_EXPERTS query in
match Analysis.routed_product a with
| Some p =>
    In p (map fst product_keywords)
    /\ (Analysis.confidence_score a <? 0.1)%float = false
    /\ exists product,
         In product Settings.IOT_PRODUCTS
         /\ Settings.name product = p
         /\ Analysis.expert_contact a = Some (Settings.expert_of product)
| None => True
end.
Proof.
cbn zeta. unfold analyze_query_intent.
destruct (is_exit_command query); [exact I|].
destruct (match is_language_selection query with
          | Some l => PyStr.truthy l
          | None => false
          end); [exact I|].
destruct (is_product_listing_request query) eqn:L; [exact I|].
unfold route_query_to_product. rewrite L.
pose proof (select_best_names query product_keywords (None, 0.0%float))
  as Hn.
destruct (select_best ratio query product_keywords (None, 0.0%float))
  as [bp bs].
cbn [fst snd] in *.
destruct (bs <? 0.1)%float eqn:T; cbn [Analysis.routed_product
  Analysis.routed Analysis.confidence_score Analysis.expert_contact];
  [exact I|].
destruct bp as [p|]; [|exact I].
destruct (Hn p eq_refl) as [H|H]; [discriminate H|].
split; [exact H|]. split; [exact T|].
cbn [map fst product_keywords In] in H.
destruct H as [<-|[<-|[<-|[<-|[]]]]].
- exists (nth 0 Settings.IOT_PRODUCTS
              {| Settings.name := ""; Settings.description := "";
                 Settings.expert_of := Settings.product_expert "" "" "" |}).
  cbn. auto.
- exists (nth 1 Settings.IOT_PRODUCTS
              {| Settings.name := ""; Settings.description := "";
                 Settings.expert_of := Settings.product_expert "" "" "" |}).
  cbn. auto.
- exists (nth 2 Settings.IOT_PRODUCTS
              {| Settings.name := ""; Settings.description := "";
                 Settings.expert_of := Settings.product_expert "" "" "" |}).
  cbn. auto.
- exists (nth 3 Settings.IOT_PRODUCTS
              {| Settings.name := ""; Settings.description := "";
                 Settings.expert_of := Settings.product_expert "" "" "" |}).
  cbn. auto 6.
Qed.

(** X26: of the nine language keywords five decide: a query selects
    English when its lower-cased, trimmed form contains "en" or
    "inggris", else Malay when it contains "malay", "melayu" or "bm",
    else no language; the keywords "english", "bahasa inggris",
    "malaysian" and "bahasa melayu" never change the answer. *)
Theorem language_selection_by_five_keywords (query : string) :
let query_lower := PyStr.strip (PyStr.lower query) in
is_language_selection query
= if PyStr.contains "en" query_lower
     || PyStr.contains "inggris" query_lower
  then Some "English"
  else if PyStr.contains "malay" query_lower
          || PyStr.contains "melayu" query_lower
          || PyStr.contains "bm" query_lower
  then Some "Malay"
  else None.
Proof.
cbn zeta. unfold is_language_selection.
set (q := PyStr.strip (PyStr.lower query)).
assert (H1 : PyStr.contains "english" q = true ->
             PyStr.contains "en" q = true)
  by (apply contains_trans; reflexivity).
assert (H2 : PyStr.contains "bahasa inggris" q = true ->
             PyStr.contains "inggris" q = true)
  by (apply contains_trans; reflexivity).
assert (H3 : PyStr.contains "malaysian" q = true ->
             PyStr.contains "malay" q = true)
  by (apply contains_trans; reflexivity).
assert (H4 : PyStr.contains "bahasa melayu" q = true ->
             PyStr.contains "melayu" q = true)
  by (apply contains_trans; reflexivity).
unfold language_keywords. cbn [first_language].
unfold any_keyword_in. cbn [existsb].
change (PyStr.title "english") with "English".
change (PyStr.title "malay") with "Malay".
destruct (PyStr.contains "english" q);
  [rewrite H1 by reflexivity; reflexivity|].
destruct (PyStr.contains "en" q); [reflexivity|].
destruct (PyStr.contains "bahasa inggris" q);
  [rewrite H2 by reflexivity; reflexivity|].
destruct (PyStr.contains "inggris" q); [reflexivity|].
cbn [orb].
destruct (PyStr.contains "malaysian" q);
  [rewrite H3 by reflexivity; reflexivity|].
destruct (PyStr.contains "malay" q); [reflexivity|].
destruct (PyStr.contains "bahasa melayu" q);
  [rewrite H4 by reflexivity; reflexivity|].
destruct (PyStr.contains "melayu" q); [reflexivity|].
cbn [orb]. now destruct (PyStr.contains "bm" q).
Qed.

End RouterFacts.

(** ** The registration form *)

Section FormFacts.

Import UI.





End FormFacts.

